(** * dd-trace-go profiler: profile types, batches, collection strategies and
      the goroutine-wait profile builder ([profiler/profile.go]).

    The development is a shallow embedding of [profiler/profile.go]:
    - Go integers are [Z]; the conversions [int64(x)] and the [uint64]
      increment [x++] are written out with their wrap-around;
    - Go maps with string keys are stdpp [gmap string _];
    - slices are lists, [append(s, x)] is [s ++ [x]];
    - pointers to records that are never mutated after their creation
      ([*pprofile.Function], [*pprofile.Location], [*pprofile.Mapping],
      [*profile]) are the records themselves;
    - the runtime's capture primitives, the clock and the statsd client are
      threaded through an explicit world state. *)

From Stdlib Require Import ZArith String List Lia PrimFloat.
From stdpp Require Import base list strings gmap.

Local Open Scope string_scope.
Local Open Scope list_scope.
Local Open Scope Z_scope.

(** ** Go machine integers *)

Module GoInt.

Definition two64 : Z := 2 ^ 64.
Definition MaxInt64 : Z := 2 ^ 63 - 1.
Definition MinInt64 : Z := - 2 ^ 63.

(** [int64(x)]: conversion of an integer value to [int64]; values outside
    the range wrap around (two's complement). *)
Definition int64 (x : Z) : Z := (x + 2 ^ 63) mod two64 - 2 ^ 63.

(** [x++] on a [uint64]. *)
Definition incr_uint64 (x : Z) : Z := (x + 1) mod two64.

Definition is_int64 (x : Z) : Prop := MinInt64 <= x <= MaxInt64.

(** [len(s)] of a Go slice is an [int]: it never exceeds [MaxInt64]. *)
Definition is_slice_len (n : nat) : Prop := Z.of_nat n <= MaxInt64.

End GoInt.

(** ** [time.Duration] *)

Module time.

(** A [Duration] is an [int64] count of nanoseconds. *)
Definition Duration : Type := Z.

Definition Nanosecond : Duration := 1.
Definition Microsecond : Duration := 1000 * Nanosecond.
Definition Millisecond : Duration := 1000 * Microsecond.
Definition Second : Duration := 1000 * Millisecond.
Definition Minute : Duration := 60 * Second.
Definition Hour : Duration := 60 * Minute.

(** [func (d Duration) Nanoseconds() int64 { return int64(d) }] *)
Definition Nanoseconds (d : Duration) : Z := d.

End time.

(** ** Package [stackparse]: the records the builder consumes *)

Module stackparse.

(** Modelled from the spec: the declaration of [stackparse.Frame] is not
    among the sources.  The spec's Frame is
    [{ function: string, file: string, line: integer }]; the fields carry the
    names [goroutineDebug2ToPprof] reads them by, and [Line] is converted
    with [int64(call.Line)]. *)
Module Frame.
Record t : Type := mk
  { Func : string;
    File : string;
    Line : Z }.
End Frame.

(** Modelled from the spec: the declaration of [stackparse.Goroutine] is not
    among the sources.  The spec's TaskRecord is
    [{ id, state: string, wait: duration, stack: ordered sequence of Frame,
    framesElided: boolean }] with the stack ordered innermost frame first;
    the fields carry the names [goroutineDebug2ToPprof] reads them by.  [ID]
    is an integer that the code converts with [int64(g.ID)]. *)
Module Goroutine.
Record t : Type := mk
  { ID : Z;
    State : string;
    Wait : time.Duration;
    Stack : list Frame.t;
    FramesElided : bool }.
End Goroutine.

(** An [error] is represented by the text its [Error()] method returns. *)
Definition error : Type := string.

(** Modelled from the spec: the declaration of [stackparse.Errors] is not
    among the sources; it is the list of per-task parse errors that
    [goroutineDebug2ToPprof] ranges over as [errs.Errors]. *)
Module Errors.
Record t : Type := mk { Errors : list error }.
End Errors.

End stackparse.

(** ** Package [pprofile] (github.com/google/pprof/profile): the profile graph

    Only the fields [profile.go] assigns are listed; every other field of the
    library's structs keeps Go's zero value. *)

Module pprofile.

Module Mapping.
Record t : Type := mk
  { ID : Z;
    HasFunctions : bool }.
End Mapping.

Module Function.
Record t : Type := mk
  { ID : Z;
    Name : string;
    Filename : string }.
End Function.

Module Line.
Record t : Type := mk
  { Function : Function.t;
    Line : Z }.
End Line.

Module Location.
Record t : Type := mk
  { ID : Z;
    Mapping : Mapping.t;
    Line : list Line.t }.
End Location.

Module ValueType.
Record t : Type := mk
  { Type_ : string;
    Unit : string }.
End ValueType.

Module Sample.
Record t : Type := mk
  { Location : list Location.t;
    Value : list Z;
    Label : gmap string (list string);
    NumLabel : gmap string (list Z);
    NumUnit : gmap string (list string) }.

Definition prepend_Location (l : Location.t) (s : t) : t :=
  {| Location := l :: Location s;
     Value := Value s;
     Label := Label s;
     NumLabel := NumLabel s;
     NumUnit := NumUnit s |}.
End Sample.

Module Profile.
Record t : Type := mk
  { SampleType : list ValueType.t;
    Sample : list Sample.t;
    Mapping : list Mapping.t;
    Location : list Location.t;
    Function : list Function.t;
    Comments : list string }.

(** [&pprofile.Profile{}] *)
Definition empty : t :=
  {| SampleType := []; Sample := []; Mapping := []; Location := [];
     Function := []; Comments := [] |}.

Definition set_Mapping (v : list Mapping.t) (p : t) : t :=
  {| SampleType := SampleType p; Sample := Sample p; Mapping := v;
     Location := Location p; Function := Function p;
     Comments := Comments p |}.

Definition set_SampleType (v : list ValueType.t) (p : t) : t :=
  {| SampleType := v; Sample := Sample p; Mapping := Mapping p;
     Location := Location p; Function := Function p;
     Comments := Comments p |}.

Definition append_Function (f : Function.t) (p : t) : t :=
  {| SampleType := SampleType p; Sample := Sample p; Mapping := Mapping p;
     Location := Location p; Function := Function p ++ [f];
     Comments := Comments p |}.

Definition append_Location (l : Location.t) (p : t) : t :=
  {| SampleType := SampleType p; Sample := Sample p; Mapping := Mapping p;
     Location := Location p ++ [l]; Function := Function p;
     Comments := Comments p |}.

Definition append_Sample (s : Sample.t) (p : t) : t :=
  {| SampleType := SampleType p; Sample := Sample p ++ [s];
     Mapping := Mapping p; Location := Location p;
     Function := Function p; Comments := Comments p |}.

Definition append_Comments (c : string) (p : t) : t :=
  {| SampleType := SampleType p; Sample := Sample p; Mapping := Mapping p;
     Location := Location p; Function := Function p;
     Comments := Comments p ++ [c] |}.
End Profile.

End pprofile.

(** ** Package [profiler]: the profile-type registry *)

(** [type ProfileType int] with the constants declared by [iota]. *)
Definition ProfileType : Type := Z.

Definition HeapProfile : ProfileType := 0.
Definition CPUProfile : ProfileType := 1.
Definition BlockProfile : ProfileType := 2.
Definition MutexProfile : ProfileType := 3.
Definition GoroutineProfile : ProfileType := 4.
Definition GoroutineWaitProfile : ProfileType := 5.
Definition MetricsProfile : ProfileType := 6.

(** [func (t ProfileType) String() string]; a Go [switch] takes the first
    case equal to [t]. *)
Definition String (t : ProfileType) : string :=
  if t =? HeapProfile then "heap"
  else if t =? CPUProfile then "cpu"
  else if t =? MutexProfile then "mutex"
  else if t =? BlockProfile then "block"
  else if t =? GoroutineProfile then "goroutine"
  else if t =? GoroutineWaitProfile then "goroutinewait"
  else if t =? MetricsProfile then "metrics"
  else "unknown".

(** [func (t ProfileType) Filename() string] *)
Definition Filename (t : ProfileType) : string :=
  if t =? HeapProfile then "heap.pprof"
  else if t =? CPUProfile then "cpu.pprof"
  else if t =? MutexProfile then "mutex.pprof"
  else if t =? BlockProfile then "block.pprof"
  else if t =? GoroutineProfile then "goroutines.pprof"
  else if t =? GoroutineWaitProfile then "goroutineswait.pprof"
  else if t =? MetricsProfile then "metrics.json"
  else "unknown".

(** [func (t ProfileType) Tag() string]:
    [fmt.Sprintf("profile_type:%s", t)]; the verb [%s] formats a value that
    has a [String] method with that method. *)
Definition Tag (t : ProfileType) : string :=
  "profile_type:" +:+ String t.

(** ** Profiles and batches *)

(** [type profile struct { name string; data []byte }] *)
Record profile : Type := mk_profile
  { name : string;
    data : list Byte.byte }.

Section Batch.

(** [time.Time] is kept abstract. *)
Variable Time : Type.

(** [type batch struct { start, end time.Time; host string;
    profiles []*profile }] *)
Record batch : Type := mk_batch
  { start : Time;
    end_ : Time;
    host : string;
    profiles : list profile }.

(** [func (b *batch) addProfile(p *profile)]: the receiver is updated in
    place; the updated batch is returned. *)
Definition addProfile (b : batch) (p : profile) : batch :=
  {| start := start b;
     end_ := end_ b;
     host := host b;
     profiles := profiles b ++ [p] |}.

End Batch.

Arguments start {Time} _.
Arguments end_ {Time} _.
Arguments host {Time} _.
Arguments profiles {Time} _.
Arguments addProfile {Time} _ _.
Arguments mk_batch {Time} _ _ _ _.

(** ** The goroutine-wait profile builder: [goroutineDebug2ToPprof] *)

Import stackparse pprofile.

(** The virtual frame appended to a truncated stack:
    [&stackparse.Frame{Func: "...additional frames elided..."}]. *)
Definition elidedFrame : Frame.t :=
  {| Frame.Func := "...additional frames elided...";
     Frame.File := "";
     Frame.Line := 0 |}.

(** [m := &pprofile.Mapping{ID: 1, HasFunctions: true}] *)
Definition m : Mapping.t :=
  {| Mapping.ID := 1; Mapping.HasFunctions := true |}.

(** The variables the two loops of [goroutineDebug2ToPprof] update. *)
Record vars : Type := mk_vars
  { functionID : Z;
    locationID : Z;
    p : Profile.t }.

(** State before the loop over the goroutines. *)
Definition init : vars :=
  {| functionID := 1;
     locationID := 1;
     p := Profile.set_SampleType
            [ {| ValueType.Type_ := "waitduration";
                 ValueType.Unit := "nanoseconds" |} ]
            (Profile.set_Mapping [m] Profile.empty) |}.

(** [function := &pprofile.Function{...}] *)
Definition newFunction (v : vars) (call : Frame.t) : Function.t :=
  {| Function.ID := functionID v;
     Function.Name := Frame.Func call;
     Function.Filename := Frame.File call |}.

(** [location := &pprofile.Location{...}] *)
Definition newLocation (v : vars) (call : Frame.t) : Location.t :=
  {| Location.ID := locationID v;
     Location.Mapping := m;
     Location.Line :=
       [ {| Line.Function := newFunction v call;
            Line.Line := GoInt.int64 (Frame.Line call) |} ] |}.

(** Body of [for _, call := range g.Stack]. *)
Definition call_body (acc : vars * Sample.t) (call : Frame.t)
  : vars * Sample.t :=
  let (v, sample) := acc in
  let function := newFunction v call in
  let location := newLocation v call in
  ( {| functionID := GoInt.incr_uint64 (functionID v);
       locationID := GoInt.incr_uint64 (locationID v);
       p := Profile.append_Location location
              (Profile.append_Function function (p v)) |},
    Sample.prepend_Location location sample ).

(** [sample := &pprofile.Sample{...}] *)
Definition newSample (g : Goroutine.t) : Sample.t :=
  {| Sample.Location := [];
     Sample.Value := [time.Nanoseconds (Goroutine.Wait g)];
     Sample.Label := {[ "state" := [Goroutine.State g] ]};
     Sample.NumUnit := {[ "goid" := ["id"] ]};
     Sample.NumLabel := {[ "goid" := [GoInt.int64 (Goroutine.ID g)] ]} |}.

(** [if g.FramesElided { g.Stack = append(g.Stack, ...) }] *)
Definition fullStack (g : Goroutine.t) : list Frame.t :=
  if Goroutine.FramesElided g
  then Goroutine.Stack g ++ [elidedFrame]
  else Goroutine.Stack g.

(** Body of [for _, g := range goroutines]. *)
Definition goroutine_body (v : vars) (g : Goroutine.t) : vars :=
  let (v', sample) := fold_left call_body (fullStack g) (v, newSample g) in
  {| functionID := functionID v';
     locationID := locationID v';
     p := Profile.append_Sample sample (p v') |}.

(** [if errs != nil { for _, err := range errs.Errors { ... } }] *)
Definition addComments (errs : option Errors.t) (q : Profile.t) : Profile.t :=
  match errs with
  | None => q
  | Some es =>
      fold_left (fun q err => Profile.append_Comments ("error: " +:+ err) q)
                (Errors.Errors es) q
  end.

(** The profile [p] at the point where [p.CheckValid()] is called. *)
Definition buildProfile (goroutines : list Goroutine.t)
    (errs : option Errors.t) : Profile.t :=
  addComments errs (p (fold_left goroutine_body goroutines init)).

Section Marshal.

(** The text read from [r io.Reader]. *)
Variable Reader : Type.
(** [stackparse.Parse] *)
Variable Parse : Reader -> list Goroutine.t * option Errors.t.
(** [p.CheckValid()] of the pprof library *)
Variable CheckValid : Profile.t -> option error.
(** [p.Write(w)] of the pprof library: the bytes written to [w] and the
    error. *)
Variable Write : Profile.t -> list Byte.byte * option error.

(** [func goroutineDebug2ToPprof(r io.Reader, w io.Writer) error]; the
    result pairs the bytes written to [w] with the returned error. *)
Definition goroutineDebug2ToPprof (r : Reader)
  : list Byte.byte * option error :=
  let (goroutines, errs) := Parse r in
  let q := buildProfile goroutines errs in
  match CheckValid q with
  | Some err => ([], Some ("marshalGoroutineDebug2Profile: " +:+ err))
  | None =>
      match Write q with
      | (out, Some err) =>
          (out, Some ("marshalGoroutineDebug2Profile: " +:+ err))
      | (out, None) => (out, None)
      end
  end.

End Marshal.

(** ** Closed form of the builder's loops

    [allFrames] lists every frame occurrence in the order the loops visit
    them; the [k]-th occurrence (counting from 0) is given the identifier
    [idOf k]. *)

Definition allFrames (goroutines : list Goroutine.t) : list Frame.t :=
  concat (map fullStack goroutines).

Definition idOf (k : nat) : Z := (1 + Z.of_nat k) mod GoInt.two64.

Definition functionAt (k : nat) (call : Frame.t) : Function.t :=
  {| Function.ID := idOf k;
     Function.Name := Frame.Func call;
     Function.Filename := Frame.File call |}.

Definition locationAt (k : nat) (call : Frame.t) : Location.t :=
  {| Location.ID := idOf k;
     Location.Mapping := m;
     Location.Line :=
       [ {| Line.Function := functionAt k call;
            Line.Line := GoInt.int64 (Frame.Line call) |} ] |}.

(** Functions and locations allocated for a stack whose first frame is the
    [k]-th occurrence. *)
Definition functionsFrom (k : nat) (stack : list Frame.t) : list Function.t :=
  imap (fun j => functionAt (k + j)) stack.

Definition locationsFrom (k : nat) (stack : list Frame.t) : list Location.t :=
  imap (fun j => locationAt (k + j)) stack.

(** The sample of a goroutine whose first frame is the [k]-th occurrence. *)
Definition sampleAt (k : nat) (g : Goroutine.t) : Sample.t :=
  {| Sample.Location := rev (locationsFrom k (fullStack g));
     Sample.Value := Sample.Value (newSample g);
     Sample.Label := Sample.Label (newSample g);
     Sample.NumLabel := Sample.NumLabel (newSample g);
     Sample.NumUnit := Sample.NumUnit (newSample g) |}.

Fixpoint samplesFrom (k : nat) (goroutines : list Goroutine.t)
  : list Sample.t :=
  match goroutines with
  | [] => []
  | g :: rest =>
      sampleAt k g :: samplesFrom (k + length (fullStack g)) rest
  end.

Definition commentsOf (errs : option Errors.t) : list string :=
  match errs with
  | None => []
  | Some es => map (fun err => "error: " +:+ err) (Errors.Errors es)
  end.

(** What a frame contributes to the graph: name, file and line. *)
Definition site : Type := (string * string * Z)%type.

Definition siteOfFrame (call : Frame.t) : site :=
  (Frame.Func call, Frame.File call, GoInt.int64 (Frame.Line call)).

Definition siteOfLine (ln : Line.t) : site :=
  (Function.Name (Line.Function ln), Function.Filename (Line.Function ln),
   Line.Line ln).

Definition sitesOf (l : Location.t) : list site :=
  map siteOfLine (Location.Line l).

(** The frames of the spec's examples. *)
Definition f1 : Frame.t :=
  {| Frame.Func := "main.f1"; Frame.File := "/a/f1.go"; Frame.Line := 11 |}.
Definition f2 : Frame.t :=
  {| Frame.Func := "main.f2"; Frame.File := "/a/f2.go"; Frame.Line := 22 |}.

(** ** The world around the profiler *)

(** What [profile.go] takes from the Go runtime and from the libraries it
    imports.  [Runtime] is the state of the process outside the profiler (the
    clock, the runtime's profile tables, the metrics source); a function
    that writes to a buffer returns the bytes it wrote. *)
Class Env : Type :=
  { (** [time.Time] *)
    Time : Type;
    Runtime : Type;
    (** [pprof.Profile] *)
    Prof : Type;
    (** [time.Now()] *)
    time_Now : Runtime -> Time * Runtime;
    (** [t.UTC()] *)
    UTC : Time -> Time;
    (** [t.Sub(u)] *)
    Sub : Time -> Time -> time.Duration;
    (** [time.Sleep(d)] *)
    Sleep : time.Duration -> Runtime -> Runtime;
    (** [pprof.WriteHeapProfile(w)] *)
    pprof_WriteHeapProfile :
      Runtime -> (list Byte.byte * option error) * Runtime;
    (** [pprof.StartCPUProfile(w)] *)
    pprof_StartCPUProfile : Runtime -> option error * Runtime;
    (** [pprof.StopCPUProfile()]: the bytes the CPU profile has written to the
        writer it was started with. *)
    pprof_StopCPUProfile : Runtime -> list Byte.byte * Runtime;
    (** [pprof.Lookup(name)] *)
    pprof_Lookup : string -> Runtime -> option Prof;
    (** [prof.WriteTo(w, debug)] *)
    WriteTo : Prof -> Z -> Runtime -> (list Byte.byte * option error) * Runtime;
    (** [p.met.report(now, buf)] *)
    met_report : Time -> Runtime -> (list Byte.byte * option error) * Runtime;
    (** [stackparse.Parse(r)] *)
    stackparse_Parse : list Byte.byte -> list Goroutine.t * option Errors.t;
    (** [p.CheckValid()] *)
    CheckValid : Profile.t -> option error;
    (** [p.Write(w)] *)
    Write : Profile.t -> list Byte.byte * option error }.

(** [errors.New(text)] *)
Definition errors_New (text : string) : error := text.

Module statsd.
(** One call [Timing(name, value, tags, rate)] on the statsd client. *)
Record call : Type := Timing
  { name : string;
    value : time.Duration;
    tags : list string;
    rate : Z }.
End statsd.

(** The fields of [config] that [profile.go] reads; [cfg.statsd] is the
    client whose calls are recorded in the world. *)
Module config.
Record t : Type := mk
  { tags : list string;
    cpuDuration : time.Duration }.
End config.

(** [type profiler struct]: [p.cfg]; the state behind [p.met] belongs to
    the [Runtime]. *)
Record profiler : Type := mk_profiler
  { cfg : config.t }.

Section Collect.

Context {env : Env}.

(** The runtime and the calls received by the statsd client so far. *)
Record World : Type := mk_World
  { runtime : Runtime;
    sent : list statsd.call }.

(** Computations on the world. *)
Definition M (A : Type) : Type := World -> A * World.

#[export] Instance M_ret : MRet M := fun A a w => (a, w).

#[export] Instance M_bind : MBind M :=
  fun A B f c w => let (a, w') := c w in f a w'.

(** A step of the runtime; the statsd client does not see it. *)
Definition lift {A : Type} (f : Runtime -> A * Runtime) : M A :=
  fun w =>
    let (a, r) := f (runtime w) in
    (a, {| runtime := r; sent := sent w |}).

(** [cfg.statsd.Timing(name, value, tags, rate)] *)
Definition statsd_Timing (name : string) (value : time.Duration)
    (tags : list string) (rate : Z) : M unit :=
  fun w =>
    (tt, {| runtime := runtime w;
            sent := sent w ++ [statsd.Timing name value tags rate] |}).

(** What a strategy returns: [( *profile, error)]. *)
Definition result : Type := (option profile * option error)%type.

(** [func now() time.Time { return time.Now().UTC() }] *)
Definition now : M Time :=
  t ← lift time_Now; mret (UTC t).

(** [var writeHeapProfile = pprof.WriteHeapProfile] *)
Definition writeHeapProfile : M (list Byte.byte * option error) :=
  lift pprof_WriteHeapProfile.

(** [func heapProfile(cfg *config) ( *profile, error)] *)
Definition heapProfile (cfg : config.t) : M result :=
  start ← now;
  '(buf, err) ← writeHeapProfile;
  match err with
  | Some err => mret (None, Some err)
  | None =>
      end_ ← now;
      let tags := config.tags cfg ++ [Tag HeapProfile] in
      statsd_Timing "datadog.profiler.go.collect_time" (Sub end_ start) tags 1;;
      mret (Some {| name := Filename HeapProfile; data := buf |}, None)
  end.

(** [startCPUProfile = pprof.StartCPUProfile] *)
Definition startCPUProfile : M (option error) := lift pprof_StartCPUProfile.

(** [stopCPUProfile = pprof.StopCPUProfile] *)
Definition stopCPUProfile : M (list Byte.byte) := lift pprof_StopCPUProfile.

Definition time_Sleep (d : time.Duration) : M unit :=
  lift (fun r => (tt, Sleep d r)).

(** [func cpuProfile(cfg *config) ( *profile, error)] *)
Definition cpuProfile (cfg : config.t) : M result :=
  start ← now;
  err ← startCPUProfile;
  match err with
  | Some err => mret (None, Some err)
  | None =>
      time_Sleep (config.cpuDuration cfg);;
      buf ← stopCPUProfile;
      end_ ← now;
      let tags := config.tags cfg ++ [Tag CPUProfile] in
      statsd_Timing "datadog.profiler.go.collect_time" (Sub end_ start) tags 1;;
      mret (Some {| name := Filename CPUProfile; data := buf |}, None)
  end.

(** [var lookupProfile = func(name string, w io.Writer, debug int) error] *)
Definition lookupProfile (name : string) (debug : Z)
  : M (list Byte.byte * option error) :=
  fun w =>
    match pprof_Lookup name (runtime w) with
    | None => (([], Some (errors_New "profile not found")), w)
    | Some prof => lift (WriteTo prof debug) w
    end.

(** [func blockProfile(cfg *config) ( *profile, error)] *)
Definition blockProfile (cfg : config.t) : M result :=
  start ← now;
  '(buf, err) ← lookupProfile (String BlockProfile) 0;
  match err with
  | Some err => mret (None, Some err)
  | None =>
      end_ ← now;
      let tags := config.tags cfg ++ [Tag BlockProfile] in
      statsd_Timing "datadog.profiler.go.collect_time" (Sub end_ start) tags 1;;
      mret (Some {| name := Filename BlockProfile; data := buf |}, None)
  end.

(** [func mutexProfile(cfg *config) ( *profile, error)] *)
Definition mutexProfile (cfg : config.t) : M result :=
  start ← now;
  '(buf, err) ← lookupProfile (String MutexProfile) 0;
  match err with
  | Some err => mret (None, Some err)
  | None =>
      end_ ← now;
      let tags := config.tags cfg ++ [Tag MutexProfile] in
      statsd_Timing "datadog.profiler.go.collect_time" (Sub end_ start) tags 1;;
      mret (Some {| name := Filename MutexProfile; data := buf |}, None)
  end.

(** [func goroutineProfile(cfg *config) ( *profile, error)] *)
Definition goroutineProfile (cfg : config.t) : M result :=
  start ← now;
  '(buf, err) ← lookupProfile (String GoroutineProfile) 0;
  match err with
  | Some err => mret (None, Some err)
  | None =>
      end_ ← now;
      let tags := config.tags cfg ++ [Tag GoroutineProfile] in
      statsd_Timing "datadog.profiler.go.collect_time" (Sub end_ start) tags 1;;
      mret (Some {| name := Filename GoroutineProfile; data := buf |}, None)
  end.

(** [goroutineDebug2ToPprof(text, pprof)] on the two buffers of
    [goroutineWaitProfile]. *)
Definition marshal (text : list Byte.byte) : list Byte.byte * option error :=
  goroutineDebug2ToPprof (list Byte.byte) stackparse_Parse CheckValid Write
    text.

(** [func goroutineWaitProfile(cfg *config) ( *profile, error)] *)
Definition goroutineWaitProfile (cfg : config.t) : M result :=
  start ← now;
  '(text, err) ← lookupProfile (String GoroutineProfile) 2;
  match err with
  | Some err => mret (None, Some err)
  | None =>
      let (pprof, err) := marshal text in
      match err with
      | Some err => mret (None, Some err)
      | None =>
          end_ ← now;
          let tags := config.tags cfg ++ [Tag GoroutineWaitProfile] in
          statsd_Timing "datadog.profiler.go.collect_time" (Sub end_ start)
            tags 1;;
          mret (Some {| name := Filename GoroutineWaitProfile; data := pprof |},
                None)
      end
  end.

(** [func (p *profiler) collectMetrics() ( *profile, error)] *)
Definition collectMetrics (p : profiler) : M result :=
  start ← now;
  '(buf, err) ← lift (met_report start);
  match err with
  | Some err => mret (None, Some err)
  | None =>
      end_ ← now;
      let tags := config.tags (cfg p) ++ [Tag MetricsProfile] in
      statsd_Timing "datadog.profiler.go.collect_time" (Sub end_ start) tags 1;;
      mret (Some {| name := Filename MetricsProfile; data := buf |}, None)
  end.

(** [func (p *profiler) runProfile(t ProfileType) ( *profile, error)] *)
Definition runProfile (p : profiler) (t : ProfileType) : M result :=
  if t =? HeapProfile then heapProfile (cfg p)
  else if t =? CPUProfile then cpuProfile (cfg p)
  else if t =? MutexProfile then mutexProfile (cfg p)
  else if t =? BlockProfile then blockProfile (cfg p)
  else if t =? GoroutineProfile then goroutineProfile (cfg p)
  else if t =? GoroutineWaitProfile then goroutineWaitProfile (cfg p)
  else if t =? MetricsProfile then collectMetrics p
  else mret (None, Some (errors_New "profile type not implemented")).

End Collect.

(** ** The shape every strategy follows *)

Section Skeleton.

Context {env : Env}.

(** The capture step of each strategy: what runs between the two readings of
    the clock, with the bytes captured and the error. *)
Definition capture : Type :=
  config.t -> Time -> M (list Byte.byte * option error).

Definition capture_heap : capture := fun _ _ => writeHeapProfile.

Definition capture_cpu : capture := fun cfg _ =>
  err ← startCPUProfile;
  match err with
  | Some err => mret ([], Some err)
  | None =>
      time_Sleep (config.cpuDuration cfg);;
      buf ← stopCPUProfile;
      mret (buf, None)
  end.

Definition capture_lookup (name : string) : capture := fun _ _ =>
  lookupProfile name 0.

Definition capture_goroutineWait : capture := fun _ _ =>
  '(text, err) ← lookupProfile (String GoroutineProfile) 2;
  match err with
  | Some err => mret ([], Some err)
  | None => mret (marshal text)
  end.

Definition capture_metrics : capture := fun _ start => lift (met_report start).

(** A strategy for the type [T] surfaces the errors of its capture step:
    it returns the error of the capture step as it is; on an error the
    profile is [nil] and the statsd client receives nothing; without error
    the captured bytes are returned under the file name of [T] and the
    client receives exactly one more call, the timing of the capture. *)
Definition surfaces_capture_error (T : ProfileType)
    (strategy : config.t -> M result) (c : capture) : Prop :=
  forall (cfg : config.t) (w : World),
    let '(start, w1) := now w in
    let '((buf, cerr), w2) := c cfg start w1 in
    let '((prof, err), w') := strategy cfg w in
    err = cerr
    /\ sent w2 = sent w
    /\ (err <> None -> prof = None /\ w' = w2)
    /\ (err = None ->
        exists end_ : Time,
          prof = Some {| name := Filename T; data := buf |}
          /\ end_ = fst (now w2)
          /\ runtime w' = runtime (snd (now w2))
          /\ sent w'
             = sent w
               ++ [statsd.Timing "datadog.profiler.go.collect_time"
                     (Sub end_ start) (config.tags cfg ++ [Tag T]) 1]).

End Skeleton.

(** ** Internal consistency of a graph

    The conditions the spec lists for a valid graph: a sample has one value
    per sample type and its locations are entries of the Location table; a
    location has a non-zero identifier, its mapping is an entry of the
    Mapping table and the functions of its lines are entries of the Function
    table; identifiers are non-zero and unique within a table. *)
Definition consistent (q : Profile.t) : Prop :=
  Forall (fun s =>
            length (Sample.Value s) = length (Profile.SampleType q)
            /\ Forall (fun l => l ∈ Profile.Location q) (Sample.Location s))
         (Profile.Sample q)
  /\ Forall (fun l =>
               Location.ID l <> 0
               /\ Location.Mapping l ∈ Profile.Mapping q
               /\ Forall (fun ln => Line.Function ln ∈ Profile.Function q)
                         (Location.Line l))
            (Profile.Location q)
  /\ Forall (fun f => Function.ID f <> 0) (Profile.Function q)
  /\ Forall (fun mp => Mapping.ID mp <> 0) (Profile.Mapping q)
  /\ NoDup (Function.ID <$> Profile.Function q)
  /\ NoDup (Location.ID <$> Profile.Location q).

(** ** Records and frames of the spec's examples *)

(** The ordering claim C1 states: the locations follow the stack, innermost
    frame first, and the elided marker comes last. *)
Definition innermost_first_elided_last (g : Goroutine.t) (s : Sample.t)
  : Prop :=
  map sitesOf (Sample.Location s)
  = map (fun call => [siteOfFrame call]) (Goroutine.Stack g ++ [elidedFrame]).

(** A goroutine with the two-frame stack [f1; f2] (innermost first) whose
    dump was truncated. *)
Definition truncated : Goroutine.t :=
  {| Goroutine.ID := 7;
     Goroutine.State := "chan receive";
     Goroutine.Wait := 5 * time.Minute;
     Goroutine.Stack := [f1; f2];
     Goroutine.FramesElided := true |}.

(** Two records with the identical stack [f1; f2]. *)
Definition twin (id : Z) : Goroutine.t :=
  {| Goroutine.ID := id;
     Goroutine.State := "select";
     Goroutine.Wait := 0;
     Goroutine.Stack := [f1; f2];
     Goroutine.FramesElided := false |}.

(** The record of the spec's end-to-end scenario. *)
Definition worker : Goroutine.t :=
  {| Goroutine.ID := 7;
     Goroutine.State := "chan receive";
     Goroutine.Wait := 5 * time.Minute;
     Goroutine.Stack :=
       [ {| Frame.Func := "main.worker";
            Frame.File := "/a/b.go";
            Frame.Line := 10 |} ];
     Goroutine.FramesElided := false |}.

(** A record that has not waited and one whose stack is empty. *)
Definition idle : Goroutine.t :=
  {| Goroutine.ID := 3;
     Goroutine.State := "running";
     Goroutine.Wait := 0;
     Goroutine.Stack := [];
     Goroutine.FramesElided := false |}.

(** A runtime as the tests install it: the clock is a counter that every
    reading advances, and the capture primitives succeed or fail as [fail]
    says. *)
Definition testEnv (fail : bool) : Env :=
  {| Time := Z;
     Runtime := Z;
     Prof := string;
     time_Now := fun r => (r, r + 1);
     UTC := fun t => t;
     Sub := fun t u => t - u;
     Sleep := fun d r => r + d;
     pprof_WriteHeapProfile := fun r =>
       if fail then (([], Some "heap profile failed"), r)
       else ([Byte.x68], None, r);
     pprof_StartCPUProfile := fun r =>
       (if fail then Some "cpu profiling already in use" else None, r);
     pprof_StopCPUProfile := fun r => ([Byte.x63], r);
     pprof_Lookup := fun name r => if fail then None else Some name;
     WriteTo := fun prof debug r => ([Byte.x6c], None, r);
     met_report := fun t r =>
       if fail then (([], Some "no metrics"), r) else ([Byte.x6d], None, r);
     stackparse_Parse := fun text => ([worker], None);
     CheckValid := fun q => None;
     Write := fun q => ([Byte.x77], None) |}.

Definition testProfiler : profiler :=
  {| cfg := {| config.tags := ["service:web"]; config.cpuDuration := 0 |} |}.

Definition testWorld (fail : bool) : @World (testEnv fail) :=
  @mk_World (testEnv fail) 100 [].

(** ** Package [mux]: the options of the traced router

    The second source file configures the traced HTTP router.  A
    [float64] is a primitive binary64 float; a tag value, of Go type
    [interface{}], is an [interface]; a function that takes a pointer to a
    configuration and updates it returns the updated configuration. *)

Module mux.

(** What the options take from the packages they import. *)
Class Deps : Type :=
  { (** [*mux.Router] *)
    Router : Type;
    (** [*http.Request] *)
    Request : Type;
    (** [req.Header], a [map[string][]string] *)
    Header : Request -> gmap string (list string);
    (** [req.URL.RawQuery] *)
    RawQuery : Request -> string;
    (** [interface{}], with the strings and the errors stored in one *)
    interface : Type;
    of_string : string -> interface;
    of_error : error -> interface;
    (** [url.Values], [url.ParseQuery] and [query.Encode()] *)
    Values : Type;
    url_ParseQuery : string -> Values * option error;
    Encode : Values -> string;
    (** [strings.ToLower] *)
    strings_ToLower : string -> string;
    (** [ext.Error] *)
    ext_Error : string;
    (** [ddtrace.FinishOption] and [tracer.NoDebugStack()] *)
    FinishOption : Type;
    tracer_NoDebugStack : FinishOption;
    (** [internal.BoolEnv(key, def)] *)
    internal_BoolEnv : string -> bool -> bool;
    (** [globalconfig.AnalyticsRate()] and [globalconfig.ServiceName()] *)
    globalconfig_AnalyticsRate : float;
    globalconfig_ServiceName : string;
    (** [defaultResourceNamer] *)
    defaultResourceNamer : Router -> Request -> string }.

Section Options.

Context {deps : Deps}.

(** [ddtrace.StartSpanConfig]: the field the options write.  [Tags] is a Go
    map, [None] when it is [nil]. *)
Record StartSpanConfig : Type := mk_StartSpanConfig
  { Tags : option (gmap string interface) }.

(** [ddtrace.StartSpanOption], a [func(cfg *StartSpanConfig)]; the result is
    [None] when the call panics. *)
Definition StartSpanOption : Type := StartSpanConfig -> option StartSpanConfig.

(** [type routerConfig struct] *)
Record routerConfig : Type := mk_routerConfig
  { serviceName : string;
    spanOpts : list StartSpanOption;
    finishOpts : list FinishOption;
    analyticsRate : float;
    resourceNamer : Router -> Request -> string;
    ignoreRequest : Request -> bool;
    setRequestData : bool;
    setQueryParameters : bool }.

(** [type RouterOption func( *routerConfig)] *)
Definition RouterOption : Type := routerConfig -> routerConfig.

(** [math.NaN()] *)
Definition math_NaN : float := nan.

(** [func defaults(cfg *routerConfig)] *)
Definition defaults (cfg : routerConfig) : routerConfig :=
  let rate :=
    if internal_BoolEnv "DD_TRACE_MUX_ANALYTICS_ENABLED" false
    then 1%float
    else globalconfig_AnalyticsRate in
  let svc := globalconfig_ServiceName in
  {| serviceName := if String.eqb svc "" then "mux.router" else svc;
     spanOpts := spanOpts cfg;
     finishOpts := finishOpts cfg;
     analyticsRate := rate;
     resourceNamer := defaultResourceNamer;
     ignoreRequest := fun _ => false;
     setRequestData := setRequestData cfg;
     setQueryParameters := setQueryParameters cfg |}.

(** [func WithIgnoreRequest(f func( *http.Request) bool) RouterOption] *)
Definition WithIgnoreRequest (f : Request -> bool) : RouterOption :=
  fun cfg =>
    {| serviceName := serviceName cfg;
       spanOpts := spanOpts cfg;
       finishOpts := finishOpts cfg;
       analyticsRate := analyticsRate cfg;
       resourceNamer := resourceNamer cfg;
       ignoreRequest := f;
       setRequestData := setRequestData cfg;
       setQueryParameters := setQueryParameters cfg |}.

(** [func WithServiceName(name string) RouterOption] *)
Definition WithServiceName (name : string) : RouterOption :=
  fun cfg =>
    {| serviceName := name;
       spanOpts := spanOpts cfg;
       finishOpts := finishOpts cfg;
       analyticsRate := analyticsRate cfg;
       resourceNamer := resourceNamer cfg;
       ignoreRequest := ignoreRequest cfg;
       setRequestData := setRequestData cfg;
       setQueryParameters := setQueryParameters cfg |}.

(** [func WithSpanOptions(opts ...ddtrace.StartSpanOption) RouterOption] *)
Definition WithSpanOptions (opts : list StartSpanOption) : RouterOption :=
  fun cfg =>
    {| serviceName := serviceName cfg;
       spanOpts := opts;
       finishOpts := finishOpts cfg;
       analyticsRate := analyticsRate cfg;
       resourceNamer := resourceNamer cfg;
       ignoreRequest := ignoreRequest cfg;
       setRequestData := setRequestData cfg;
       setQueryParameters := setQueryParameters cfg |}.

(** [func NoDebugStack() RouterOption] *)
Definition NoDebugStack : RouterOption :=
  fun cfg =>
    {| serviceName := serviceName cfg;
       spanOpts := spanOpts cfg;
       finishOpts := finishOpts cfg ++ [tracer_NoDebugStack];
       analyticsRate := analyticsRate cfg;
       resourceNamer := resourceNamer cfg;
       ignoreRequest := ignoreRequest cfg;
       setRequestData := setRequestData cfg;
       setQueryParameters := setQueryParameters cfg |}.

Definition set_analyticsRate (rate : float) (cfg : routerConfig)
  : routerConfig :=
  {| serviceName := serviceName cfg;
     spanOpts := spanOpts cfg;
     finishOpts := finishOpts cfg;
     analyticsRate := rate;
     resourceNamer := resourceNamer cfg;
     ignoreRequest := ignoreRequest cfg;
     setRequestData := setRequestData cfg;
     setQueryParameters := setQueryParameters cfg |}.

(** [func WithAnalytics(on bool) RouterOption] *)
Definition WithAnalytics (on : bool) : RouterOption :=
  fun cfg =>
    if on then set_analyticsRate 1%float cfg
    else set_analyticsRate math_NaN cfg.

(** [func WithAnalyticsRate(rate float64) RouterOption]; [rate >= 0.0] is
    [0.0 <= rate]. *)
Definition WithAnalyticsRate (rate : float) : RouterOption :=
  fun cfg =>
    if PrimFloat.leb 0%float rate && PrimFloat.leb rate 1%float
    then set_analyticsRate rate cfg
    else set_analyticsRate math_NaN cfg.

(** [func WithResourceNamer(namer func( *Router, *http.Request) string)
    RouterOption] *)
Definition WithResourceNamer (namer : Router -> Request -> string)
  : RouterOption :=
  fun cfg =>
    {| serviceName := serviceName cfg;
       spanOpts := spanOpts cfg;
       finishOpts := finishOpts cfg;
       analyticsRate := analyticsRate cfg;
       resourceNamer := namer;
       ignoreRequest := ignoreRequest cfg;
       setRequestData := setRequestData cfg;
       setQueryParameters := setQueryParameters cfg |}.

(** [func WithHeaderTags() RouterOption] *)
Definition WithHeaderTags : RouterOption :=
  fun cfg =>
    {| serviceName := serviceName cfg;
       spanOpts := spanOpts cfg;
       finishOpts := finishOpts cfg;
       analyticsRate := analyticsRate cfg;
       resourceNamer := resourceNamer cfg;
       ignoreRequest := ignoreRequest cfg;
       setRequestData := true;
       setQueryParameters := setQueryParameters cfg |}.

(** [func WithQueryParameters() RouterOption] *)
Definition WithQueryParameters : RouterOption :=
  fun cfg =>
    {| serviceName := serviceName cfg;
       spanOpts := spanOpts cfg;
       finishOpts := finishOpts cfg;
       analyticsRate := analyticsRate cfg;
       resourceNamer := resourceNamer cfg;
       ignoreRequest := ignoreRequest cfg;
       setRequestData := setRequestData cfg;
       setQueryParameters := true |}.

(** [cfg.Tags[key] = value]: an assignment to an entry of a [nil] map
    panics. *)
Definition assign_Tags (key : string) (value : interface)
    (cfg : StartSpanConfig) : option StartSpanConfig :=
  match Tags cfg with
  | None => None
  | Some tags => Some {| Tags := Some (<[key := value]> tags) |}
  end.

(** [!strings.HasPrefix(strings.ToLower(k), "x-datadog-")] *)
Definition forwarded (k : string) : bool :=
  negb (String.prefix "x-datadog-" (strings_ToLower k)).

(** [fmt.Sprintf("http.headers.%v", k)] *)
Definition headerTag (k : string) : string := "http.headers." +:+ k.

(** Body of [for k, v := range req.Header] in [getHeaderTags]. *)
Definition header_body (cfg : StartSpanConfig) (kv : string * list string)
  : option StartSpanConfig :=
  if forwarded kv.1
  then assign_Tags (headerTag kv.1) (of_string (String.concat "" kv.2)) cfg
  else Some cfg.

(** The loop of [getHeaderTags] when [range] yields the entries of the
    header in the order [order]; a panic ends it. *)
Definition range_Header (order : list (string * list string))
    (cfg : StartSpanConfig) : option StartSpanConfig :=
  foldl (fun acc kv => acc ≫= fun c => header_body c kv) (Some cfg) order.

(** [func getHeaderTags(req *http.Request) ddtrace.StartSpanOption]; Go
    leaves the order of [range] over a map unspecified, here it is the
    order of [map_to_list]. *)
Definition getHeaderTags (req : Request) : StartSpanOption :=
  fun cfg => range_Header (map_to_list (Header req)) cfg.

(** The tags after one header entry, when the map is not [nil]. *)
Definition forward_into (tags : gmap string interface)
    (kv : string * list string) : gmap string interface :=
  if forwarded kv.1
  then <[headerTag kv.1 := of_string (String.concat "" kv.2)]> tags
  else tags.

(** [func getQueryParameters(req *http.Request) ddtrace.StartSpanOption] *)
Definition getQueryParameters (req : Request) : StartSpanOption :=
  fun cfg =>
    let (query, err) := url_ParseQuery (RawQuery req) in
    match err with
    | Some err => assign_Tags ext_Error (of_error err) cfg
    | None => assign_Tags "http.querystring" (of_string (Encode query)) cfg
    end.

End Options.

End mux.

(** ** A request for the examples of the router options *)

(** Lower-casing of the ASCII letters, as [strings.ToLower] does on a
    string of ASCII characters. *)
Definition lower_ascii (c : Ascii.ascii) : Ascii.ascii :=
  let n := Ascii.nat_of_ascii c in
  if ((65 <=? n) && (n <=? 90))%nat then Ascii.ascii_of_nat (n + 32) else c.

Fixpoint lower (s : string) : string :=
  match s with
  | EmptyString => EmptyString
  | String.String c rest => String.String (lower_ascii c) (lower rest)
  end.

(** A request is its header; a tag value is a string or an error. *)
Definition testDeps : mux.Deps :=
  {| mux.Router := unit;
     mux.Request := gmap string (list string);
     mux.Header := fun req => req;
     mux.RawQuery := fun req => "";
     mux.interface := (string + error)%type;
     mux.of_string := inl;
     mux.of_error := inr;
     mux.Values := string;
     mux.url_ParseQuery := fun raw => (raw, None);
     mux.Encode := fun q => q;
     mux.strings_ToLower := lower;
     mux.ext_Error := "error";
     mux.FinishOption := unit;
     mux.tracer_NoDebugStack := tt;
     mux.internal_BoolEnv := fun key def => def;
     mux.globalconfig_AnalyticsRate := nan;
     mux.globalconfig_ServiceName := "";
     mux.defaultResourceNamer := fun router req => "" |}.

(** A request with two headers to forward and one of the tracer's own. *)
Definition testRequest : @mux.Request testDeps :=
  {[ "Accept" := ["text/html"; ",*/*"];
     "X-Datadog-Trace-Id" := ["42"];
     "Host" := ["example.org"] ]}.

(** * Properties *)

(** ** Machine integers *)

Lemma int64_id (x : Z) : GoInt.is_int64 x -> GoInt.int64 x = x.
Proof.
  unfold GoInt.is_int64, GoInt.int64, GoInt.MinInt64, GoInt.MaxInt64, GoInt.two64.
  intros Hx. rewrite Z.mod_small; lia.
Qed.

Lemma incr_idOf (k : nat) : GoInt.incr_uint64 (idOf k) = idOf (S k).
Proof.
  unfold GoInt.incr_uint64, idOf.
  rewrite Zplus_mod_idemp_l. f_equal. lia.
Qed.

Lemma idOf_small (k : nat) :
  GoInt.is_slice_len k -> idOf k = 1 + Z.of_nat k.
Proof.
  unfold GoInt.is_slice_len, GoInt.MaxInt64, idOf, GoInt.two64.
  intros Hk. apply Z.mod_small. lia.
Qed.

Lemma is_slice_len_le (i n : nat) :
  (i <= n)%nat -> GoInt.is_slice_len n -> GoInt.is_slice_len i.
Proof. unfold GoInt.is_slice_len. lia. Qed.

(** ** The loop over the calls of one stack *)

Lemma functionsFrom_cons (k : nat) (call : Frame.t) (stack : list Frame.t) :
  functionsFrom k (call :: stack)
  = functionAt k call :: functionsFrom (S k) stack.
Proof.
  unfold functionsFrom. cbn [imap]. rewrite Nat.add_0_r. f_equal.
  apply imap_ext. intros j c _. cbn. f_equal. lia.
Qed.

Lemma locationsFrom_cons (k : nat) (call : Frame.t) (stack : list Frame.t) :
  locationsFrom k (call :: stack)
  = locationAt k call :: locationsFrom (S k) stack.
Proof.
  unfold locationsFrom. cbn [imap]. rewrite Nat.add_0_r. f_equal.
  apply imap_ext. intros j c _. cbn. f_equal. lia.
Qed.

Lemma functionsFrom_app (k : nat) (s1 s2 : list Frame.t) :
  functionsFrom k (s1 ++ s2)
  = functionsFrom k s1 ++ functionsFrom (k + length s1) s2.
Proof.
  revert k. induction s1 as [|c s1 IH]; intros k.
  - cbn. rewrite Nat.add_0_r. reflexivity.
  - cbn [app length]. rewrite !functionsFrom_cons, IH. cbn [app].
    do 3 f_equal. lia.
Qed.

Lemma locationsFrom_app (k : nat) (s1 s2 : list Frame.t) :
  locationsFrom k (s1 ++ s2)
  = locationsFrom k s1 ++ locationsFrom (k + length s1) s2.
Proof.
  revert k. induction s1 as [|c s1 IH]; intros k.
  - cbn. rewrite Nat.add_0_r. reflexivity.
  - cbn [app length]. rewrite !locationsFrom_cons, IH. cbn [app].
    do 3 f_equal. lia.
Qed.

Lemma length_functionsFrom (k : nat) (stack : list Frame.t) :
  length (functionsFrom k stack) = length stack.
Proof. apply length_imap. Qed.

Lemma length_locationsFrom (k : nat) (stack : list Frame.t) :
  length (locationsFrom k stack) = length stack.
Proof. apply length_imap. Qed.

Lemma lookup_functionsFrom (k i : nat) (stack : list Frame.t) :
  functionsFrom k stack !! i = functionAt (k + i) <$> stack !! i.
Proof. unfold functionsFrom. rewrite list_lookup_imap. reflexivity. Qed.

Lemma lookup_locationsFrom (k i : nat) (stack : list Frame.t) :
  locationsFrom k stack !! i = locationAt (k + i) <$> stack !! i.
Proof. unfold locationsFrom. rewrite list_lookup_imap. reflexivity. Qed.

Lemma call_body_fold (stack : list Frame.t) :
  forall (k : nat) (q : Profile.t) (s : Sample.t),
    fold_left call_body stack
      ({| functionID := idOf k; locationID := idOf k; p := q |}, s)
    = ({| functionID := idOf (k + length stack);
          locationID := idOf (k + length stack);
          p := {| Profile.SampleType := Profile.SampleType q;
                  Profile.Sample := Profile.Sample q;
                  Profile.Mapping := Profile.Mapping q;
                  Profile.Location :=
                    Profile.Location q ++ locationsFrom k stack;
                  Profile.Function :=
                    Profile.Function q ++ functionsFrom k stack;
                  Profile.Comments := Profile.Comments q |} |},
       {| Sample.Location := rev (locationsFrom k stack) ++ Sample.Location s;
          Sample.Value := Sample.Value s;
          Sample.Label := Sample.Label s;
          Sample.NumLabel := Sample.NumLabel s;
          Sample.NumUnit := Sample.NumUnit s |}).
Proof.
  induction stack as [|call stack IH]; intros k q s.
  - cbn. rewrite Nat.add_0_r, !app_nil_r. destruct q, s; reflexivity.
  - cbn [fold_left call_body].
    cbn [functionID locationID p].
    rewrite !incr_idOf, (IH (S k)).
    rewrite functionsFrom_cons, locationsFrom_cons.
    replace (S k + length stack)%nat with (k + length (call :: stack))%nat
      by (cbn [length]; lia).
    unfold Profile.append_Location, Profile.append_Function,
      Sample.prepend_Location.
    cbn [Profile.SampleType Profile.Sample Profile.Mapping Profile.Location
         Profile.Function Profile.Comments Sample.Location Sample.Value
         Sample.Label Sample.NumLabel Sample.NumUnit rev].
    rewrite <- !app_assoc. reflexivity.
Qed.

(** ** The loop over the goroutines *)

Lemma allFrames_cons (g : Goroutine.t) (rest : list Goroutine.t) :
  allFrames (g :: rest) = fullStack g ++ allFrames rest.
Proof. reflexivity. Qed.

Lemma goroutine_body_fold (goroutines : list Goroutine.t) :
  forall (k : nat) (q : Profile.t),
    fold_left goroutine_body goroutines
      {| functionID := idOf k; locationID := idOf k; p := q |}
    = {| functionID := idOf (k + length (allFrames goroutines));
         locationID := idOf (k + length (allFrames goroutines));
         p := {| Profile.SampleType := Profile.SampleType q;
                 Profile.Sample := Profile.Sample q ++ samplesFrom k goroutines;
                 Profile.Mapping := Profile.Mapping q;
                 Profile.Location :=
                   Profile.Location q ++ locationsFrom k (allFrames goroutines);
                 Profile.Function :=
                   Profile.Function q ++ functionsFrom k (allFrames goroutines);
                 Profile.Comments := Profile.Comments q |} |}.
Proof.
  induction goroutines as [|g rest IH]; intros k q.
  - cbn. rewrite Nat.add_0_r, !app_nil_r. destruct q; reflexivity.
  - cbn [fold_left]. unfold goroutine_body at 2.
    rewrite call_body_fold. cbn [functionID locationID p].
    rewrite IH, allFrames_cons, functionsFrom_app, locationsFrom_app.
    rewrite length_app, Nat.add_assoc.
    unfold Profile.append_Sample.
    cbn [Profile.SampleType Profile.Sample Profile.Mapping Profile.Location
         Profile.Function Profile.Comments samplesFrom].
    rewrite <- !app_assoc, app_nil_r. reflexivity.
Qed.

Lemma addComments_fold (es : list error) (q : Profile.t) :
  fold_left (fun q err => Profile.append_Comments ("error: " +:+ err) q) es q
  = {| Profile.SampleType := Profile.SampleType q;
       Profile.Sample := Profile.Sample q;
       Profile.Mapping := Profile.Mapping q;
       Profile.Location := Profile.Location q;
       Profile.Function := Profile.Function q;
       Profile.Comments :=
         Profile.Comments q ++ map (fun err => "error: " +:+ err) es |}.
Proof.
  revert q. induction es as [|e es IH]; intros q.
  - cbn. rewrite app_nil_r. destruct q; reflexivity.
  - cbn [fold_left map]. rewrite IH. unfold Profile.append_Comments.
    cbn [Profile.SampleType Profile.Sample Profile.Mapping Profile.Location
         Profile.Function Profile.Comments].
    rewrite <- app_assoc. reflexivity.
Qed.

(** The graph handed to [CheckValid], in closed form. *)
Lemma buildProfile_closed (goroutines : list Goroutine.t)
    (errs : option Errors.t) :
  buildProfile goroutines errs
  = {| Profile.SampleType :=
         [ {| ValueType.Type_ := "waitduration";
              ValueType.Unit := "nanoseconds" |} ];
       Profile.Sample := samplesFrom 0 goroutines;
       Profile.Mapping := [m];
       Profile.Location := locationsFrom 0 (allFrames goroutines);
       Profile.Function := functionsFrom 0 (allFrames goroutines);
       Profile.Comments := commentsOf errs |}.
Proof.
  unfold buildProfile, init.
  change 1 with (idOf 0) at 1 2.
  rewrite goroutine_body_fold. cbn [p].
  destruct errs as [es|]; cbn [addComments commentsOf].
  - rewrite addComments_fold. reflexivity.
  - reflexivity.
Qed.

Lemma length_samplesFrom (goroutines : list Goroutine.t) (k : nat) :
  length (samplesFrom k goroutines) = length goroutines.
Proof.
  revert k. induction goroutines as [|g rest IH]; intros k; cbn; [|rewrite IH];
    reflexivity.
Qed.

Lemma lookup_samplesFrom (goroutines : list Goroutine.t) :
  forall (k i : nat) (g : Goroutine.t),
    goroutines !! i = Some g ->
    samplesFrom k goroutines !! i
    = Some (sampleAt (k + length (allFrames (take i goroutines))) g).
Proof.
  induction goroutines as [|g0 rest IH]; intros k i g Hi.
  - discriminate.
  - destruct i as [|i]; cbn in Hi.
    + injection Hi as ->. cbn. rewrite Nat.add_0_r. reflexivity.
    + change (take (S i) (g0 :: rest)) with (g0 :: take i rest).
      rewrite allFrames_cons, length_app, Nat.add_assoc.
      cbn [samplesFrom]. apply (IH _ _ _ Hi).
Qed.

Lemma sitesOf_locationsFrom (stack : list Frame.t) (k : nat) :
  map sitesOf (locationsFrom k stack)
  = map (fun call => [siteOfFrame call]) stack.
Proof.
  revert k. induction stack as [|c stack IH]; intros k.
  - reflexivity.
  - rewrite locationsFrom_cons. cbn [map]. rewrite IH. reflexivity.
Qed.

(** The tables of the graph, entry by entry, when the identifiers do not
    wrap around. *)
Lemma function_table (goroutines : list Goroutine.t) (errs : option Errors.t)
    (i : nat) (call : Frame.t) :
  GoInt.is_slice_len (length (allFrames goroutines)) ->
  allFrames goroutines !! i = Some call ->
  Profile.Function (buildProfile goroutines errs) !! i
  = Some {| Function.ID := 1 + Z.of_nat i;
            Function.Name := Frame.Func call;
            Function.Filename := Frame.File call |}.
Proof.
  intros Hlen Hi. rewrite buildProfile_closed. cbn [Profile.Function].
  rewrite lookup_functionsFrom, Hi. cbn. unfold functionAt.
  rewrite idOf_small; [reflexivity|].
  apply lookup_lt_Some in Hi.
  apply (is_slice_len_le _ (length (allFrames goroutines))); [lia|assumption].
Qed.

Lemma location_table (goroutines : list Goroutine.t) (errs : option Errors.t)
    (i : nat) (call : Frame.t) :
  GoInt.is_slice_len (length (allFrames goroutines)) ->
  allFrames goroutines !! i = Some call ->
  Profile.Location (buildProfile goroutines errs) !! i
  = Some {| Location.ID := 1 + Z.of_nat i;
            Location.Mapping := m;
            Location.Line :=
              [ {| Line.Function :=
                     {| Function.ID := 1 + Z.of_nat i;
                        Function.Name := Frame.Func call;
                        Function.Filename := Frame.File call |};
                   Line.Line := GoInt.int64 (Frame.Line call) |} ] |}.
Proof.
  intros Hlen Hi. rewrite buildProfile_closed. cbn [Profile.Location].
  rewrite lookup_locationsFrom, Hi. cbn. unfold locationAt, functionAt.
  rewrite idOf_small; [reflexivity|].
  apply lookup_lt_Some in Hi.
  apply (is_slice_len_le _ (length (allFrames goroutines))); [lia|assumption].
Qed.

Lemma length_Function (goroutines : list Goroutine.t) (errs : option Errors.t) :
  length (Profile.Function (buildProfile goroutines errs))
  = length (allFrames goroutines).
Proof. rewrite buildProfile_closed. apply length_functionsFrom. Qed.

Lemma length_Location (goroutines : list Goroutine.t) (errs : option Errors.t) :
  length (Profile.Location (buildProfile goroutines errs))
  = length (allFrames goroutines).
Proof. rewrite buildProfile_closed. apply length_locationsFrom. Qed.

Lemma function_table_ID (goroutines : list Goroutine.t)
    (errs : option Errors.t) (i : nat) (f : Function.t) :
  GoInt.is_slice_len (length (allFrames goroutines)) ->
  Profile.Function (buildProfile goroutines errs) !! i = Some f ->
  Function.ID f = 1 + Z.of_nat i.
Proof.
  intros Hlen Hf.
  assert (Hi : (i < length (allFrames goroutines))%nat).
  { rewrite <- (length_Function goroutines errs). eapply lookup_lt_Some, Hf. }
  apply lookup_lt_is_Some in Hi. destruct Hi as [call Hcall].
  rewrite (function_table _ _ _ _ Hlen Hcall) in Hf.
  injection Hf as <-. reflexivity.
Qed.

Lemma location_table_ID (goroutines : list Goroutine.t)
    (errs : option Errors.t) (i : nat) (l : Location.t) :
  GoInt.is_slice_len (length (allFrames goroutines)) ->
  Profile.Location (buildProfile goroutines errs) !! i = Some l ->
  Location.ID l = 1 + Z.of_nat i.
Proof.
  intros Hlen Hl.
  assert (Hi : (i < length (allFrames goroutines))%nat).
  { rewrite <- (length_Location goroutines errs). eapply lookup_lt_Some, Hl. }
  apply lookup_lt_is_Some in Hi. destruct Hi as [call Hcall].
  rewrite (location_table _ _ _ _ Hlen Hcall) in Hl.
  injection Hl as <-. reflexivity.
Qed.

(** A table whose [i]-th identifier is [1 + i] has no repeated identifier,
    hence no repeated entry. *)
Lemma NoDup_by_ID {A : Type} (ID : A -> Z) (table : list A) :
  (forall i x, table !! i = Some x -> ID x = 1 + Z.of_nat i) ->
  NoDup (ID <$> table) /\ NoDup table.
Proof.
  intros Hid.
  assert (Hids : NoDup (ID <$> table)).
  { apply NoDup_alt. intros i j x Hi Hj.
    rewrite list_lookup_fmap in Hi, Hj.
    destruct (table !! i) as [a|] eqn:Ea; [|discriminate].
    destruct (table !! j) as [b|] eqn:Eb; [|discriminate].
    cbn in Hi, Hj. injection Hi as Hi. injection Hj as Hj.
    apply Hid in Ea, Eb. lia. }
  split; [assumption|].
  eapply NoDup_fmap_1, Hids.
Qed.

Lemma rev_lookup {A : Type} (l : list A) (i : nat) :
  (i < length l)%nat -> rev l !! i = l !! (length l - S i)%nat.
Proof. intros Hi. rewrite rev_alt. apply (reverse_lookup l i Hi). Qed.

(** The sample built for the [i]-th goroutine. *)
Lemma sample_of_goroutine (goroutines : list Goroutine.t)
    (errs : option Errors.t) (i : nat) (g : Goroutine.t) :
  goroutines !! i = Some g ->
  Profile.Sample (buildProfile goroutines errs) !! i
  = Some (sampleAt (length (allFrames (take i goroutines))) g).
Proof.
  intros Hi. rewrite buildProfile_closed. cbn [Profile.Sample].
  apply (lookup_samplesFrom goroutines 0 i g Hi).
Qed.

Lemma sitesOf_sampleAt (k : nat) (g : Goroutine.t) :
  map sitesOf (Sample.Location (sampleAt k g))
  = rev (map (fun call => [siteOfFrame call]) (fullStack g)).
Proof.
  cbn [sampleAt Sample.Location].
  rewrite map_rev, sitesOf_locationsFrom. reflexivity.
Qed.

(** ** The graph the builder hands to validation is consistent *)

Lemma allFrames_app (gs1 gs2 : list Goroutine.t) :
  allFrames (gs1 ++ gs2) = allFrames gs1 ++ allFrames gs2.
Proof. unfold allFrames. rewrite map_app, concat_app. reflexivity. Qed.

Lemma locations_of_goroutine_in_table (goroutines : list Goroutine.t)
    (i : nat) (g : Goroutine.t) (l : Location.t) :
  goroutines !! i = Some g ->
  l ∈ locationsFrom (length (allFrames (take i goroutines))) (fullStack g) ->
  l ∈ locationsFrom 0 (allFrames goroutines).
Proof.
  intros Hi Hl.
  rewrite <- (take_drop_middle goroutines i g Hi).
  rewrite allFrames_app, allFrames_cons, !locationsFrom_app.
  rewrite !elem_of_app. right. left. exact Hl.
Qed.

(** X1: the graph [goroutineDebug2ToPprof] hands to [CheckValid] is
    internally consistent: every sample has exactly one value for the one
    sample type and references only entries of the Location table, every
    location references the mapping of the Mapping table and a function of
    the Function table, and identifiers are non-zero and unique within each
    table. *)
Lemma buildProfile_consistent (goroutines : list Goroutine.t)
    (errs : option Errors.t) :
  GoInt.is_slice_len (length (allFrames goroutines)) ->
  consistent (buildProfile goroutines errs).
Proof.
  intros Hlen.
  pose proof (NoDup_by_ID Function.ID _
    (fun i f => function_table_ID goroutines errs i f Hlen)) as [HF _].
  pose proof (NoDup_by_ID Location.ID _
    (fun i l => location_table_ID goroutines errs i l Hlen)) as [HL _].
  unfold consistent. repeat split; try assumption.
  - apply Forall_lookup. intros i s Hs.
    assert (Hi : (i < length goroutines)%nat).
    { apply lookup_lt_Some in Hs. rewrite buildProfile_closed in Hs.
      cbn [Profile.Sample] in Hs. rewrite length_samplesFrom in Hs. exact Hs. }
    apply lookup_lt_is_Some in Hi. destruct Hi as [g Hg].
    rewrite (sample_of_goroutine _ errs _ _ Hg) in Hs. injection Hs as <-.
    split; [rewrite buildProfile_closed; reflexivity|].
    cbn [sampleAt Sample.Location]. apply Forall_forall. intros l Hl.
    rewrite buildProfile_closed. cbn [Profile.Location].
    apply (locations_of_goroutine_in_table goroutines i g l Hg).
    rewrite rev_alt in Hl. exact (proj1 (elem_of_reverse l _) Hl).
  - apply Forall_lookup. intros i l Hl.
    assert (Hi : (i < length (allFrames goroutines))%nat).
    { rewrite <- (length_Location goroutines errs).
      eapply lookup_lt_Some, Hl. }
    apply lookup_lt_is_Some in Hi. destruct Hi as [call Hcall].
    rewrite (location_table _ _ _ _ Hlen Hcall) in Hl. injection Hl as <-.
    cbn [Location.ID Location.Mapping Location.Line].
    split; [lia|]. split.
    + rewrite buildProfile_closed. cbn [Profile.Mapping]. apply list_elem_of_here.
    + apply Forall_cons. split; [|apply Forall_nil_2]. cbn [Line.Function].
      eapply list_elem_of_lookup_2. apply (function_table _ _ _ _ Hlen Hcall).
  - apply Forall_lookup. intros i f Hf.
    apply (function_table_ID _ _ _ _ Hlen) in Hf. lia.
  - rewrite buildProfile_closed. cbn [Profile.Mapping].
    apply Forall_cons. split; [discriminate|apply Forall_nil_2].
Qed.

(** The graph of a complete record followed by a truncated one. *)
Example worker_graph_is_consistent :
  consistent (buildProfile [worker; truncated] None).
Proof.
  apply buildProfile_consistent.
  unfold GoInt.is_slice_len, GoInt.MaxInt64. cbn. lia.
Defined.

(** ** Ordering of a sample's locations (claim C1) *)

(** C1, as stated, fails: for the truncated two-frame stack [f1; f2] the
    sample has three locations, but the elided marker is at index 0 and the
    last location is the innermost frame [f1]. *)
Lemma elided_marker_first_innermost_last :
  exists s : Sample.t,
    Profile.Sample (buildProfile [truncated] None) = [s]
    /\ length (Sample.Location s) = 3%nat
    /\ sitesOf <$> last (Sample.Location s)
       = Some [("main.f1", "/a/f1.go", 11)]
    /\ sitesOf <$> head (Sample.Location s)
       = Some [("...additional frames elided...", "", 0)]
    /\ ~ innermost_first_elided_last truncated s.
Proof.
  eexists. split; [reflexivity|].
  split; [reflexivity|].
  split; [reflexivity|].
  split; [reflexivity|].
  unfold innermost_first_elided_last. intros H. vm_compute in H. discriminate H.
Qed.

(** C1, amended: for a record with [framesElided = true] and a stack of [n]
    frames, the sample has [n + 1] locations in the reverse of the stack
    order (outermost first): index 0 is the synthetic location named
    ["...additional frames elided..."] with file [""] and line 0, and the
    frame at stack index [j] is at index [n - j], so the innermost frame is
    last. *)
Theorem elided_sample_locations_outermost_first
    (goroutines : list Goroutine.t) (errs : option Errors.t)
    (i : nat) (g : Goroutine.t) :
  goroutines !! i = Some g ->
  Goroutine.FramesElided g = true ->
  exists s : Sample.t,
    Profile.Sample (buildProfile goroutines errs) !! i = Some s
    /\ length (Sample.Location s) = S (length (Goroutine.Stack g))
    /\ map sitesOf (Sample.Location s)
       = rev (map (fun call => [siteOfFrame call])
                  (Goroutine.Stack g ++ [elidedFrame]))
    /\ sitesOf <$> head (Sample.Location s)
       = Some [("...additional frames elided...", "", 0)]
    /\ forall (j : nat) (call : Frame.t),
         Goroutine.Stack g !! j = Some call ->
         sitesOf <$> Sample.Location s !! (length (Goroutine.Stack g) - j)%nat
         = Some [siteOfFrame call].
Proof.
  intros Hi He.
  exists (sampleAt (length (allFrames (take i goroutines))) g).
  split; [apply sample_of_goroutine, Hi|].
  set (s := sampleAt _ g).
  assert (Hs : map sitesOf (Sample.Location s)
               = rev (map (fun call => [siteOfFrame call])
                          (Goroutine.Stack g ++ [elidedFrame]))).
  { unfold s. rewrite sitesOf_sampleAt. unfold fullStack. rewrite He.
    reflexivity. }
  assert (Hlen : length (Sample.Location s) = S (length (Goroutine.Stack g))).
  { rewrite <- (length_map sitesOf), Hs, length_rev, length_map, length_app.
    cbn. lia. }
  split; [exact Hlen|]. split; [exact Hs|]. split.
  - rewrite map_app, rev_app_distr in Hs. cbn [map rev app] in Hs.
    destruct (Sample.Location s) as [|l ls]; [discriminate Hs|].
    cbn in Hs |- *. injection Hs as -> _. reflexivity.
  - intros j call Hj.
    rewrite <- list_lookup_fmap. change (sitesOf <$> Sample.Location s)
      with (map sitesOf (Sample.Location s)).
    rewrite Hs.
    pose proof (lookup_lt_Some _ _ _ Hj) as Hlt.
    rewrite rev_lookup; rewrite length_map, length_app; cbn [length];
      [|lia].
    replace (length (Goroutine.Stack g) + 1 - S (length (Goroutine.Stack g) - j))%nat
      with j by lia.
    change (map ?f ?l) with (f <$> l).
    rewrite list_lookup_fmap, lookup_app_l, Hj; [reflexivity|assumption].
Qed.

(** The amended C1 at the truncated stack [f1; f2]. *)
Lemma elided_sample_locations_witness :
  exists s : Sample.t,
    Profile.Sample (buildProfile [truncated] None) !! 0%nat = Some s
    /\ length (Sample.Location s) = 3%nat
    /\ map sitesOf (Sample.Location s)
       = [ [("...additional frames elided...", "", 0)];
           [("main.f2", "/a/f2.go", 22)];
           [("main.f1", "/a/f1.go", 11)] ].
Proof.
  destruct (elided_sample_locations_outermost_first [truncated] None 0
              truncated eq_refl eq_refl) as (s & Hs & Hlen & Hsites & _).
  exists s. split; [exact Hs|]. split; [exact Hlen|]. exact Hsites.
Defined.

(** ** No deduplication, sequential identifiers (claim C2) *)

(** C2: every frame occurrence, across frames and across goroutines, gets a
    Function entry and a Location entry of its own; the [i]-th occurrence in
    construction order carries the identifier [1 + i] in both tables, so the
    identifiers start at 1, increase strictly and are unique, and no two
    entries of a table are equal.  The function table is a Go slice, hence
    the bound on its length. *)
Theorem every_frame_occurrence_gets_fresh_entries
    (goroutines : list Goroutine.t) (errs : option Errors.t) :
  GoInt.is_slice_len (length (allFrames goroutines)) ->
  let q := buildProfile goroutines errs in
  length (Profile.Function q) = length (allFrames goroutines)
  /\ length (Profile.Location q) = length (allFrames goroutines)
  /\ (forall (i : nat) (call : Frame.t),
        allFrames goroutines !! i = Some call ->
        Profile.Function q !! i
        = Some {| Function.ID := 1 + Z.of_nat i;
                  Function.Name := Frame.Func call;
                  Function.Filename := Frame.File call |}
        /\ Location.ID <$> Profile.Location q !! i = Some (1 + Z.of_nat i))
  /\ (forall (i j : nat) (f f' : Function.t),
        (i < j)%nat ->
        Profile.Function q !! i = Some f ->
        Profile.Function q !! j = Some f' ->
        Function.ID f < Function.ID f')
  /\ (forall (i j : nat) (l l' : Location.t),
        (i < j)%nat ->
        Profile.Location q !! i = Some l ->
        Profile.Location q !! j = Some l' ->
        Location.ID l < Location.ID l')
  /\ NoDup (Function.ID <$> Profile.Function q)
  /\ NoDup (Location.ID <$> Profile.Location q)
  /\ NoDup (Profile.Function q)
  /\ NoDup (Profile.Location q).
Proof.
  intros Hlen q.
  pose proof (NoDup_by_ID Function.ID (Profile.Function q)
    (fun i f => function_table_ID goroutines errs i f Hlen)) as [HF1 HF2].
  pose proof (NoDup_by_ID Location.ID (Profile.Location q)
    (fun i l => location_table_ID goroutines errs i l Hlen)) as [HL1 HL2].
  repeat split; try assumption.
  - apply length_Function.
  - apply length_Location.
  - apply function_table; assumption.
  - unfold q. rewrite (location_table _ _ _ _ Hlen H). reflexivity.
  - intros i j f f' Hij Hf Hf'.
    apply (function_table_ID _ _ _ _ Hlen) in Hf, Hf'. lia.
  - intros i j l l' Hij Hl Hl'.
    apply (location_table_ID _ _ _ _ Hlen) in Hl, Hl'. lia.
Qed.

(** Four entries fit a slice. *)
Lemma is_slice_len_4 : GoInt.is_slice_len 4.
Proof. unfold GoInt.is_slice_len, GoInt.MaxInt64. lia. Defined.

(** C2 at two records with the identical stack [f1; f2]: four Function
    entries and four Location entries, all distinct. *)
Lemma twin_stacks_allocate_four_entries :
  let q := buildProfile [twin 1; twin 2] None in
  length (Profile.Function q) = 4%nat
  /\ length (Profile.Location q) = 4%nat
  /\ NoDup (Profile.Function q)
  /\ NoDup (Profile.Location q)
  /\ Function.ID <$> Profile.Function q = [1; 2; 3; 4]
  /\ Location.ID <$> Profile.Location q = [1; 2; 3; 4].
Proof.
  destruct (every_frame_occurrence_gets_fresh_entries [twin 1; twin 2] None
              is_slice_len_4)
    as (HlenF & HlenL & _ & _ & _ & _ & _ & HF & HL).
  repeat split; try assumption; reflexivity.
Defined.

(** ** Value and labels of a sample (claim C3) *)

(** C3: the sample of a record carries exactly one value, the wait duration
    in nanoseconds (300000000000 for a wait of five minutes), the string
    label [state] mapped to [[State]], and the numeric label [goid] mapped to
    [[ID]].  The code stores [int64(g.ID)], which is the identifier itself
    for every identifier that an [int64] represents. *)
Theorem sample_carries_wait_state_and_goid
    (goroutines : list Goroutine.t) (errs : option Errors.t)
    (i : nat) (g : Goroutine.t) :
  goroutines !! i = Some g ->
  GoInt.is_int64 (Goroutine.ID g) ->
  exists s : Sample.t,
    Profile.Sample (buildProfile goroutines errs) !! i = Some s
    /\ Sample.Value s = [time.Nanoseconds (Goroutine.Wait g)]
    /\ (Goroutine.Wait g = 5 * time.Minute ->
        Sample.Value s = [300000000000])
    /\ Sample.Label s = {[ "state" := [Goroutine.State g] ]}
    /\ Sample.Label s !! "state" = Some [Goroutine.State g]
    /\ Sample.NumLabel s = {[ "goid" := [Goroutine.ID g] ]}
    /\ Sample.NumLabel s !! "goid" = Some [Goroutine.ID g].
Proof.
  intros Hi Hid.
  exists (sampleAt (length (allFrames (take i goroutines))) g).
  split; [apply sample_of_goroutine, Hi|].
  cbn [sampleAt newSample Sample.Value Sample.Label Sample.NumLabel].
  rewrite (int64_id _ Hid).
  split; [reflexivity|].
  split; [intros ->; reflexivity|].
  split; [reflexivity|].
  split; [apply lookup_singleton_eq|].
  split; [reflexivity|apply lookup_singleton_eq].
Qed.

(** The identifier 7 is an [int64]. *)
Lemma is_int64_7 : GoInt.is_int64 7.
Proof. unfold GoInt.is_int64, GoInt.MinInt64, GoInt.MaxInt64. lia. Defined.

(** C3 at the record of the end-to-end scenario. *)
Lemma worker_sample_witness :
  exists s : Sample.t,
    Profile.Sample (buildProfile [worker] None) !! 0%nat = Some s
    /\ Sample.Value s = [300000000000]
    /\ Sample.Label s !! "state" = Some ["chan receive"]
    /\ Sample.NumLabel s !! "goid" = Some [7].
Proof.
  destruct (sample_carries_wait_state_and_goid [worker] None 0 worker
              eq_refl is_int64_7)
    as (s & Hs & _ & Hv & _ & Hstate & _ & Hgoid).
  exists s. split; [exact Hs|]. split; [exact (Hv eq_refl)|].
  split; [exact Hstate|exact Hgoid].
Defined.

(** ** One sample per record (claim C9) *)

(** C9: the graph has exactly one sample per record, in input order: the
    [i]-th sample is the one built for the [i]-th record.  Nothing is
    filtered: a record that waited for 0 yields the value 0, and a record
    with an empty stack and [framesElided = false] yields a sample without
    locations. *)
Theorem one_sample_per_goroutine_in_order
    (goroutines : list Goroutine.t) (errs : option Errors.t) :
  let q := buildProfile goroutines errs in
  length (Profile.Sample q) = length goroutines
  /\ forall (i : nat) (g : Goroutine.t),
       goroutines !! i = Some g ->
       exists s : Sample.t,
         Profile.Sample q !! i = Some s
         /\ s = sampleAt (length (allFrames (take i goroutines))) g
         /\ Sample.Value s = [time.Nanoseconds (Goroutine.Wait g)]
         /\ Sample.Label s !! "state" = Some [Goroutine.State g]
         /\ Sample.NumLabel s !! "goid" = Some [GoInt.int64 (Goroutine.ID g)]
         /\ length (Sample.Location s) = length (fullStack g)
         /\ (Goroutine.Wait g = 0 -> Sample.Value s = [0])
         /\ (Goroutine.Stack g = [] ->
             Goroutine.FramesElided g = false ->
             Sample.Location s = []).
Proof.
  intros q. split.
  - unfold q. rewrite buildProfile_closed. apply length_samplesFrom.
  - intros i g Hi.
    exists (sampleAt (length (allFrames (take i goroutines))) g).
    split; [apply sample_of_goroutine, Hi|].
    split; [reflexivity|].
    cbn [sampleAt newSample Sample.Value Sample.Label Sample.NumLabel
         Sample.Location].
    split; [reflexivity|].
    split; [apply lookup_singleton_eq|].
    split; [apply lookup_singleton_eq|].
    split; [rewrite length_rev; apply length_locationsFrom|].
    split; [intros ->; reflexivity|].
    intros Hstack Hel. unfold fullStack. rewrite Hel, Hstack. reflexivity.
Qed.

Example idle_goroutines_are_kept :
  map (fun s => (Sample.Value s, Sample.Location s))
      (Profile.Sample (buildProfile [idle; twin 4; idle] None))
  = [ ([0], []);
      ([0], [locationAt 1 f2; locationAt 0 f1]);
      ([0], []) ].
Proof. reflexivity. Qed.

(** ** The two tables are aligned (claim C10) *)

(** C10: the Function table and the Location table have the same length;
    the [i]-th Location has identifier [i + 1], references the single
    Mapping, whose identifier is 1, and holds exactly one Line, whose
    Function is the [i]-th Function entry, of identifier [i + 1] too. *)
Theorem locations_mirror_functions
    (goroutines : list Goroutine.t) (errs : option Errors.t) :
  let q := buildProfile goroutines errs in
  GoInt.is_slice_len (length (Profile.Function q)) ->
  length (Profile.Function q) = length (Profile.Location q)
  /\ Profile.Mapping q = [m]
  /\ Mapping.ID m = 1
  /\ forall i : nat,
       (i < length (Profile.Location q))%nat ->
       exists (l : Location.t) (f : Function.t) (line : Z),
         Profile.Location q !! i = Some l
         /\ Profile.Function q !! i = Some f
         /\ Location.ID l = Z.of_nat i + 1
         /\ Function.ID f = Z.of_nat i + 1
         /\ Location.Mapping l = m
         /\ Location.Line l = [ {| Line.Function := f; Line.Line := line |} ].
Proof.
  intros q Hlen. unfold q in Hlen. rewrite length_Function in Hlen.
  split; [unfold q; rewrite length_Function, length_Location; reflexivity|].
  split; [unfold q; rewrite buildProfile_closed; reflexivity|].
  split; [reflexivity|].
  intros i Hi. unfold q in Hi. rewrite length_Location in Hi.
  apply lookup_lt_is_Some in Hi. destruct Hi as [call Hcall].
  eexists _, _, _.
  split; [apply (location_table _ _ _ _ Hlen Hcall)|].
  split; [apply (function_table _ _ _ _ Hlen Hcall)|].
  cbn. repeat split; lia.
Qed.

(** C10 at a truncated record followed by a complete one: five entries per
    table, the third of identifier 3. *)
Lemma locations_mirror_functions_witness :
  let q := buildProfile [truncated; twin 2] None in
  length (Profile.Function q) = 5%nat
  /\ length (Profile.Location q) = 5%nat
  /\ exists (l : Location.t) (f : Function.t) (line : Z),
       Profile.Location q !! 2%nat = Some l
       /\ Profile.Function q !! 2%nat = Some f
       /\ Location.ID l = 3
       /\ Function.ID f = 3
       /\ Location.Mapping l = m
       /\ Location.Line l = [ {| Line.Function := f; Line.Line := line |} ].
Proof.
  assert (Hlen : GoInt.is_slice_len
            (length (Profile.Function (buildProfile [truncated; twin 2] None)))).
  { unfold GoInt.is_slice_len, GoInt.MaxInt64. cbn. lia. }
  destruct (locations_mirror_functions [truncated; twin 2] None Hlen)
    as (Heq & _ & _ & Hall).
  split; [reflexivity|]. split; [reflexivity|].
  apply (Hall 2%nat). cbn. lia.
Defined.

(** ** Parse errors become comments (claim C4) *)

(** C4: the parse errors delivered with the records are attached to the
    graph as comments, one per error and in order, each prefixed with
    ["error: "]; the rest of the graph is what it is without errors, and
    [goroutineDebug2ToPprof] fails only when the library's validation or
    serialisation of the graph fails: it returns [nil] whenever both
    succeed. *)
Theorem parse_errors_become_comments
    (Reader : Type) (Parse : Reader -> list Goroutine.t * option Errors.t)
    (CheckValid : Profile.t -> option error)
    (Write : Profile.t -> list Byte.byte * option error)
    (r : Reader) (goroutines : list Goroutine.t) (es : list error) :
  Parse r = (goroutines, Some {| Errors.Errors := es |}) ->
  let q := buildProfile goroutines (Some {| Errors.Errors := es |}) in
  let q0 := buildProfile goroutines None in
  let result := goroutineDebug2ToPprof Reader Parse CheckValid Write r in
  Profile.Comments q = map (fun err => "error: " +:+ err) es
  /\ length (Profile.Comments q) = length es
  /\ (forall (i : nat) (err : error),
        es !! i = Some err ->
        Profile.Comments q !! i = Some ("error: " +:+ err))
  /\ q = {| Profile.SampleType := Profile.SampleType q0;
            Profile.Sample := Profile.Sample q0;
            Profile.Mapping := Profile.Mapping q0;
            Profile.Location := Profile.Location q0;
            Profile.Function := Profile.Function q0;
            Profile.Comments := map (fun err => "error: " +:+ err) es |}
  /\ (CheckValid q = None -> snd (Write q) = None ->
      result = (fst (Write q), None))
  /\ (forall e : error,
        snd result = Some e ->
        (exists err, CheckValid q = Some err
                     /\ e = "marshalGoroutineDebug2Profile: " +:+ err)
        \/ (exists err, CheckValid q = None /\ snd (Write q) = Some err
                        /\ e = "marshalGoroutineDebug2Profile: " +:+ err)).
Proof.
  intros HParse q q0 result.
  assert (Hc : Profile.Comments q = map (fun err => "error: " +:+ err) es).
  { unfold q. rewrite buildProfile_closed. reflexivity. }
  split; [exact Hc|].
  split; [rewrite Hc; apply length_map|].
  split.
  { intros i err Hi. rewrite Hc.
    change (map ?f ?l) with (f <$> l). rewrite list_lookup_fmap.
    unfold error in Hi. rewrite Hi. reflexivity. }
  split; [unfold q, q0; rewrite !buildProfile_closed; reflexivity|].
  unfold result, goroutineDebug2ToPprof. rewrite HParse. fold q.
  split.
  - intros Hv Hw. rewrite Hv. destruct (Write q) as [out [err|]];
      [discriminate Hw|reflexivity].
  - intros e He. destruct (CheckValid q) as [err|].
    + left. exists err. cbn in He. injection He as <-. split; reflexivity.
    + right. destruct (Write q) as [out [err|]]; cbn in He;
        [|discriminate He].
      exists err. injection He as <-. repeat split.
Qed.

(** C4 at two parse errors, with a validation and a serialisation that
    succeed. *)
Lemma parse_errors_become_comments_witness :
  let q := buildProfile [worker] (Some {| Errors.Errors := ["bad header"; "bad frame"] |}) in
  Profile.Comments q = ["error: bad header"; "error: bad frame"]
  /\ goroutineDebug2ToPprof unit
       (fun _ => ([worker], Some {| Errors.Errors := ["bad header"; "bad frame"] |}))
       (fun _ => None) (fun _ => ([], None)) tt
     = ([], None).
Proof.
  destruct (parse_errors_become_comments unit
              (fun _ => ([worker], Some {| Errors.Errors := ["bad header"; "bad frame"] |}))
              (fun _ => None) (fun _ => ([], None)) tt
              [worker] ["bad header"; "bad frame"] eq_refl)
    as (Hc & _ & _ & _ & Hok & _).
  split; [exact Hc|]. exact (Hok eq_refl eq_refl).
Defined.

(** ** The profile-type registry (claim C5) *)

(** Walks down a [switch] on [t] when [t] equals none of its cases. *)
Ltac not_a_case t :=
  repeat match goal with
         | |- context [Z.eqb t ?c] => destruct (Z.eqb_spec t c); [lia|]
         end;
  reflexivity.

(** C5: name, file name and tag of the seven profile types are the fixed
    strings; the tag is ["profile_type:"] followed by the name; a value that
    is none of the seven has the name and the file name ["unknown"] and the
    tag ["profile_type:unknown"]. *)
Theorem registry_strings :
  (String HeapProfile = "heap"
   /\ String CPUProfile = "cpu"
   /\ String MutexProfile = "mutex"
   /\ String BlockProfile = "block"
   /\ String GoroutineProfile = "goroutine"
   /\ String GoroutineWaitProfile = "goroutinewait"
   /\ String MetricsProfile = "metrics")
  /\ (Filename HeapProfile = "heap.pprof"
      /\ Filename CPUProfile = "cpu.pprof"
      /\ Filename MutexProfile = "mutex.pprof"
      /\ Filename BlockProfile = "block.pprof"
      /\ Filename GoroutineProfile = "goroutines.pprof"
      /\ Filename GoroutineWaitProfile = "goroutineswait.pprof"
      /\ Filename MetricsProfile = "metrics.json")
  /\ (Tag HeapProfile = "profile_type:heap"
      /\ Tag CPUProfile = "profile_type:cpu"
      /\ Tag MutexProfile = "profile_type:mutex"
      /\ Tag BlockProfile = "profile_type:block"
      /\ Tag GoroutineProfile = "profile_type:goroutine"
      /\ Tag GoroutineWaitProfile = "profile_type:goroutinewait"
      /\ Tag MetricsProfile = "profile_type:metrics")
  /\ (forall t : ProfileType, Tag t = "profile_type:" +:+ String t)
  /\ (forall t : ProfileType,
        ~ (HeapProfile <= t <= MetricsProfile) ->
        String t = "unknown"
        /\ Filename t = "unknown"
        /\ Tag t = "profile_type:unknown").
Proof.
  split; [repeat split|].
  split; [repeat split|].
  split; [repeat split|].
  split; [reflexivity|].
  intros t Ht.
  unfold HeapProfile, MetricsProfile in Ht.
  assert (Hs : String t = "unknown").
  { unfold String, HeapProfile, CPUProfile, MutexProfile, BlockProfile,
      GoroutineProfile, GoroutineWaitProfile, MetricsProfile.
    not_a_case t. }
  split; [exact Hs|]. split.
  - unfold Filename, HeapProfile, CPUProfile, MutexProfile, BlockProfile,
      GoroutineProfile, GoroutineWaitProfile, MetricsProfile.
    not_a_case t.
  - unfold Tag. rewrite Hs. reflexivity.
Qed.

(** ** Batches (claim C8) *)

(** C8: [N] calls of [addProfile] append the [N] profiles in call order
    after the profiles the batch already holds, which stay as they are; a
    batch that starts without profiles then holds exactly the [N] profiles.
    [addProfile] writes no other field: [end] keeps the value it had, so it
    stays unset when it was. *)
Theorem addProfile_appends_in_call_order
    (Time : Type) (b : batch Time) (ps : list profile) :
  let b' := fold_left addProfile ps b in
  profiles b' = profiles b ++ ps
  /\ length (profiles b') = (length (profiles b) + length ps)%nat
  /\ (forall (i : nat) (p : profile),
        profiles b !! i = Some p -> profiles b' !! i = Some p)
  /\ (forall (i : nat) (p : profile),
        ps !! i = Some p ->
        profiles b' !! (length (profiles b) + i)%nat = Some p)
  /\ end_ b' = end_ b
  /\ start b' = start b
  /\ host b' = host b
  /\ forall (start0 unset : Time) (host0 : string),
       let fresh := fold_left addProfile ps (mk_batch start0 unset host0 []) in
       profiles fresh = ps
       /\ length (profiles fresh) = length ps
       /\ end_ fresh = unset.
Proof.
  assert (H : forall (ps : list profile) (b : batch Time),
             fold_left addProfile ps b
             = {| start := start b; end_ := end_ b; host := host b;
                  profiles := profiles b ++ ps |}).
  { clear. induction ps as [|p ps IH]; intros b.
    - cbn. rewrite app_nil_r. destruct b; reflexivity.
    - cbn [fold_left]. rewrite IH. unfold addProfile. cbn.
      rewrite <- app_assoc. reflexivity. }
  intros b'. unfold b'. rewrite H. cbn [profiles end_ start host].
  split; [reflexivity|].
  split; [apply length_app|].
  split; [intros i p Hi; apply lookup_app_l_Some, Hi|].
  split; [intros i p Hi; rewrite lookup_app_r by lia|].
  { replace (length (profiles b) + i - length (profiles b))%nat with i by lia.
    exact Hi. }
  repeat split; rewrite H; reflexivity.
Qed.

(** ** The dispatcher (claim C6) *)

(** C6: for a value that is none of the seven profile types, [runProfile]
    returns no profile and the error ["profile type not implemented"]; the
    world is left as it was: nothing ran and the statsd client received
    nothing.  For each of the seven types [runProfile] is the strategy of
    that type. *)
Theorem runProfile_dispatch {env : Env} (p : profiler) :
  (forall (t : ProfileType) (w : World),
     ~ (HeapProfile <= t <= MetricsProfile) ->
     runProfile p t w
     = ((None, Some (errors_New "profile type not implemented")), w))
  /\ runProfile p HeapProfile = heapProfile (cfg p)
  /\ runProfile p CPUProfile = cpuProfile (cfg p)
  /\ runProfile p MutexProfile = mutexProfile (cfg p)
  /\ runProfile p BlockProfile = blockProfile (cfg p)
  /\ runProfile p GoroutineProfile = goroutineProfile (cfg p)
  /\ runProfile p GoroutineWaitProfile = goroutineWaitProfile (cfg p)
  /\ runProfile p MetricsProfile = collectMetrics p.
Proof.
  split; [|repeat split].
  intros t w Ht.
  unfold runProfile, HeapProfile, CPUProfile, MutexProfile, BlockProfile,
    GoroutineProfile, GoroutineWaitProfile, MetricsProfile in *.
  not_a_case t.
Qed.

(** ** Errors of the capture step and the timing metric (claim C7) *)

(** Runs a strategy and its capture step side by side on a world. *)
Ltac run_strategy :=
  intros cfg w;
  unfold now, writeHeapProfile, startCPUProfile, stopCPUProfile, time_Sleep,
    lookupProfile, statsd_Timing, lift, mbind, mret, M_bind, M_ret;
  cbn [runtime sent fst snd];
  repeat match goal with
         | |- context [let (_, _) := ?x in _] =>
             match x with
             | context [match _ with _ => _ end] => fail 1
             | _ => destruct x eqn:?
             end
         | |- context [match ?x with Some _ => _ | None => _ end] =>
             match x with
             | context [match _ with _ => _ end] => fail 1
             | _ => destruct x eqn:?
             end
         end;
  cbn [runtime sent fst snd];
  repeat match goal with
         | H : (_, _) = (_, _) |- _ => injection H as ? ?; subst
         end.

Ltac close_strategy :=
  repeat match goal with
         | |- _ /\ _ => split
         | |- _ = _ => reflexivity
         | |- Some _ = None -> _ => intros H; discriminate H
         | |- None = None -> _ => intros _; eexists
         | |- Some _ <> None -> _ => intros _
         | |- None <> None -> _ => intros H; exfalso; apply H; reflexivity
         end.

(** C7: each of the seven strategies returns the error of its capture step
    unmodified, with a [nil] profile, and then the statsd client receives
    nothing; when the capture step succeeds the strategy returns the
    captured bytes under the file name of its type and the client receives
    exactly one call, the timing of the capture tagged with the configured
    tags and the tag of the type.  So the timing metric is emitted exactly
    when the strategy succeeds. *)
Theorem strategies_surface_capture_errors {env : Env} :
  surfaces_capture_error HeapProfile heapProfile capture_heap
  /\ surfaces_capture_error CPUProfile cpuProfile capture_cpu
  /\ surfaces_capture_error BlockProfile blockProfile
       (capture_lookup (String BlockProfile))
  /\ surfaces_capture_error MutexProfile mutexProfile
       (capture_lookup (String MutexProfile))
  /\ surfaces_capture_error GoroutineProfile goroutineProfile
       (capture_lookup (String GoroutineProfile))
  /\ surfaces_capture_error GoroutineWaitProfile goroutineWaitProfile
       capture_goroutineWait
  /\ surfaces_capture_error MetricsProfile
       (fun cfg => collectMetrics {| cfg := cfg |}) capture_metrics.
Proof.
  unfold surfaces_capture_error.
  split; [unfold heapProfile, capture_heap; run_strategy; close_strategy|].
  split; [unfold cpuProfile, capture_cpu; run_strategy; close_strategy|].
  split; [unfold blockProfile, capture_lookup; run_strategy; close_strategy|].
  split; [unfold mutexProfile, capture_lookup; run_strategy; close_strategy|].
  split; [unfold goroutineProfile, capture_lookup; run_strategy;
          close_strategy|].
  split; [unfold goroutineWaitProfile, capture_goroutineWait; run_strategy;
          close_strategy|].
  unfold collectMetrics, capture_metrics; run_strategy; close_strategy.
Qed.

(** ** The strategies on a deterministic runtime *)

Example heapProfile_failure :
  @heapProfile (testEnv true) (cfg testProfiler) (testWorld true)
  = ((None, Some "heap profile failed"), @mk_World (testEnv true) 101 []).
Proof. reflexivity. Qed.

Example goroutineWaitProfile_table_not_found :
  @goroutineWaitProfile (testEnv true) (cfg testProfiler) (testWorld true)
  = ((None, Some "profile not found"), @mk_World (testEnv true) 101 []).
Proof. reflexivity. Qed.

Example cpuProfile_zero_duration :
  @cpuProfile (testEnv false) (cfg testProfiler) (testWorld false)
  = ((Some {| name := "cpu.pprof"; data := [Byte.x63] |}, None),
     @mk_World (testEnv false) 102
       [ statsd.Timing "datadog.profiler.go.collect_time" 1
           ["service:web"; "profile_type:cpu"] 1 ]).
Proof. reflexivity. Qed.

Example goroutineWaitProfile_success :
  @goroutineWaitProfile (testEnv false) (cfg testProfiler) (testWorld false)
  = ((Some {| name := "goroutineswait.pprof"; data := [Byte.x77] |}, None),
     @mk_World (testEnv false) 102
       [ statsd.Timing "datadog.profiler.go.collect_time" 1
           ["service:web"; "profile_type:goroutinewait"] 1 ]).
Proof. reflexivity. Qed.

Example runProfile_unsupported :
  @runProfile (testEnv false) testProfiler 7 (testWorld false)
  = ((None, Some "profile type not implemented"), testWorld false)
  /\ @runProfile (testEnv false) testProfiler (-1) (testWorld false)
     = ((None, Some "profile type not implemented"), testWorld false).
Proof. split; reflexivity. Qed.

(** * Further properties of [profile.go] *)

(** ** The samples partition the Location table *)

Lemma samplesFrom_app (gs1 gs2 : list Goroutine.t) (k : nat) :
  samplesFrom k (gs1 ++ gs2)
  = samplesFrom k gs1 ++ samplesFrom (k + length (allFrames gs1)) gs2.
Proof.
  revert k. induction gs1 as [|g gs1 IH]; intros k.
  - cbn. rewrite Nat.add_0_r. reflexivity.
  - cbn [app samplesFrom]. rewrite IH, allFrames_cons, length_app, Nat.add_assoc.
    reflexivity.
Qed.

Lemma samplesFrom_locations (goroutines : list Goroutine.t) (k : nat) :
  concat (map (fun s => rev (Sample.Location s)) (samplesFrom k goroutines))
  = locationsFrom k (allFrames goroutines).
Proof.
  revert k. induction goroutines as [|g rest IH]; intros k.
  - reflexivity.
  - cbn [samplesFrom map concat sampleAt Sample.Location].
    rewrite rev_involutive, IH, allFrames_cons, locationsFrom_app.
    reflexivity.
Qed.

(** X2: the Location table is the concatenation, in sample order, of the
    samples' location sequences read backwards: every Location entry
    belongs to exactly one sample, no entry is shared between samples and
    none is left unreferenced. *)
Theorem samples_partition_location_table
    (goroutines : list Goroutine.t) (errs : option Errors.t) :
  let q := buildProfile goroutines errs in
  concat (map (fun s => rev (Sample.Location s)) (Profile.Sample q))
  = Profile.Location q.
Proof.
  intros q. unfold q. rewrite buildProfile_closed.
  cbn [Profile.Sample Profile.Location]. apply samplesFrom_locations.
Qed.

(** ** Earlier entries do not depend on later goroutines *)

(** X3: building the graph of [gs1 ++ gs2] extends the tables built for
    [gs1]: the Function, Location and Sample tables of [gs1] are prefixes of
    those of [gs1 ++ gs2], whatever the parse errors are. *)
Theorem tables_of_a_prefix_are_prefixes
    (gs1 gs2 : list Goroutine.t) (errs errs' : option Errors.t) :
  Profile.Function (buildProfile gs1 errs)
    `prefix_of` Profile.Function (buildProfile (gs1 ++ gs2) errs')
  /\ Profile.Location (buildProfile gs1 errs)
       `prefix_of` Profile.Location (buildProfile (gs1 ++ gs2) errs')
  /\ Profile.Sample (buildProfile gs1 errs)
       `prefix_of` Profile.Sample (buildProfile (gs1 ++ gs2) errs').
Proof.
  rewrite !buildProfile_closed.
  cbn [Profile.Function Profile.Location Profile.Sample].
  rewrite allFrames_app, functionsFrom_app, locationsFrom_app, samplesFrom_app.
  repeat split; eexists; reflexivity.
Qed.

(** ** Size of the tables *)

Lemma length_allFrames (goroutines : list Goroutine.t) :
  length (allFrames goroutines)
  = (sum_list (map (fun g => length (Goroutine.Stack g)) goroutines)
     + length (List.filter Goroutine.FramesElided goroutines))%nat.
Proof.
  induction goroutines as [|g rest IH]; [reflexivity|].
  rewrite allFrames_cons, length_app, IH. cbn [map sum_list List.filter].
  unfold fullStack, id.
  destruct (Goroutine.FramesElided g); rewrite ?length_app; cbn [length]; lia.
Qed.

(** X4: the Function table and the Location table each hold one entry per
    stack frame of every record plus one entry per record whose frames were
    elided. *)
Theorem tables_count_frames_and_elided_markers
    (goroutines : list Goroutine.t) (errs : option Errors.t) :
  let q := buildProfile goroutines errs in
  let frames :=
    sum_list (map (fun g => length (Goroutine.Stack g)) goroutines) in
  let elided := length (List.filter Goroutine.FramesElided goroutines) in
  length (Profile.Function q) = (frames + elided)%nat
  /\ length (Profile.Location q) = (frames + elided)%nat.
Proof.
  intros q frames elided. unfold q.
  rewrite length_Function, length_Location, length_allFrames. split; reflexivity.
Qed.

(** ** A profile the runtime does not know *)

(** Unfolds the monadic steps of a strategy applied to a world. *)
Ltac step_strategy :=
  unfold now, writeHeapProfile, startCPUProfile, stopCPUProfile, time_Sleep,
    lookupProfile, statsd_Timing, lift, mbind, mret, M_bind, M_ret;
  cbn [runtime sent fst snd];
  repeat match goal with
         | |- context [let (_, _) := ?x in _] =>
             match x with
             | context [match _ with _ => _ end] => fail 1
             | _ => destruct x eqn:?
             end
         | |- context [match ?x with Some _ => _ | None => _ end] =>
             match x with
             | context [match _ with _ => _ end] => fail 1
             | _ => destruct x eqn:?
             end
         end;
  cbn [runtime sent fst snd] in *;
  repeat match goal with
         | H : (_, _) = (_, _) |- _ => injection H as ? ?; subst
         end.

(** X5: when [pprof.Lookup] knows no profile of the name a strategy asks
    for, the strategy returns no profile and the error ["profile not found"];
    the world is the one left by the first reading of the clock: nothing
    was written, the parser did not run and the statsd client received
    nothing.  The goroutine-wait strategy asks for the profile named
    ["goroutine"], like the goroutine strategy. *)
Theorem missing_profile_is_reported {env : Env} (cfg : config.t) (w : World) :
  let w1 := snd (now w) in
  let not_found : result * World :=
    ((None, Some (errors_New "profile not found")), w1) in
  (pprof_Lookup "block" (runtime w1) = None -> blockProfile cfg w = not_found)
  /\ (pprof_Lookup "mutex" (runtime w1) = None ->
      mutexProfile cfg w = not_found)
  /\ (pprof_Lookup "goroutine" (runtime w1) = None ->
      goroutineProfile cfg w = not_found
      /\ goroutineWaitProfile cfg w = not_found).
Proof.
  intros w1 not_found. unfold not_found, w1.
  unfold blockProfile, mutexProfile, goroutineProfile, goroutineWaitProfile.
  change (String BlockProfile) with "block".
  change (String MutexProfile) with "mutex".
  change (String GoroutineProfile) with "goroutine".
  unfold now, lookupProfile, lift, mbind, mret, M_bind, M_ret.
  destruct (time_Now (runtime w)) as [t r]. cbn [runtime sent fst snd].
  split; [intros ->; reflexivity|].
  split; [intros ->; reflexivity|].
  intros ->. split; reflexivity.
Qed.

(** X5 on the runtime in which every lookup fails. *)
Lemma missing_profile_is_reported_witness :
  @blockProfile (testEnv true) (cfg testProfiler) (testWorld true)
  = ((None, Some "profile not found"), @mk_World (testEnv true) 101 [])
  /\ @goroutineWaitProfile (testEnv true) (cfg testProfiler) (testWorld true)
     = ((None, Some "profile not found"), @mk_World (testEnv true) 101 []).
Proof.
  destruct (@missing_profile_is_reported (testEnv true) (cfg testProfiler)
              (testWorld true)) as (Hb & _ & Hg).
  split; [exact (Hb eq_refl)|exact (proj2 (Hg eq_refl))].
Defined.

(** ** What [runProfile] returns *)

(** X6: for every value of the profile type, supported or not, [runProfile]
    returns either a profile or an error, never both and never neither.
    With an error the statsd client has received nothing; with a profile
    the type is one of the seven, the profile carries the file name of the
    type, and the client has received exactly one more call, tagged with the
    configured tags followed by the tag of the type. *)
Theorem runProfile_returns_profile_xor_error {env : Env}
    (p : profiler) (t : ProfileType) (w : World) :
  let '((prof, err), w') := runProfile p t w in
  (prof = None <-> err <> None)
  /\ (err <> None -> sent w' = sent w)
  /\ (forall pr : profile,
        prof = Some pr ->
        HeapProfile <= t <= MetricsProfile
        /\ name pr = Filename t
        /\ exists d : time.Duration,
             sent w'
             = sent w
               ++ [statsd.Timing "datadog.profiler.go.collect_time" d
                     (config.tags (cfg p) ++ [Tag t]) 1]).
Proof.
  assert (Hcases : t = HeapProfile \/ t = CPUProfile \/ t = MutexProfile
                   \/ t = BlockProfile \/ t = GoroutineProfile
                   \/ t = GoroutineWaitProfile \/ t = MetricsProfile
                   \/ ~ (HeapProfile <= t <= MetricsProfile)).
  { unfold HeapProfile, CPUProfile, MutexProfile, BlockProfile,
      GoroutineProfile, GoroutineWaitProfile, MetricsProfile. lia. }
  destruct Hcases as [->|[->|[->|[->|[->|[->|[->|Hout]]]]]]].
  8: { replace (runProfile p t w)
         with ((None : option profile,
                Some (errors_New "profile type not implemented")), w).
       - split; [split; [discriminate|reflexivity]|].
         split; [reflexivity|discriminate].
       - unfold runProfile, HeapProfile, CPUProfile, MutexProfile,
           BlockProfile, GoroutineProfile, GoroutineWaitProfile,
           MetricsProfile in *.
         symmetry. not_a_case t. }
  all: unfold runProfile, HeapProfile, CPUProfile, MutexProfile, BlockProfile,
         GoroutineProfile, GoroutineWaitProfile, MetricsProfile;
       cbn [Z.eqb Pos.eqb].
  all: unfold heapProfile, cpuProfile, mutexProfile, blockProfile,
         goroutineProfile, goroutineWaitProfile, collectMetrics;
       step_strategy.
  all: split; [split; [discriminate || reflexivity
                      |first [reflexivity
                             |intros H; exfalso; apply H; reflexivity]]|].
  all: split; [first [reflexivity|intros H; exfalso; apply H; reflexivity]|].
  all: intros pr Hpr; first [discriminate Hpr|injection Hpr as <-].
  all: split; [lia|].
  all: split; [reflexivity|eexists; reflexivity].
Qed.

(** ** Names, file names and tags identify the profile type *)

Lemma supported_cases (t : ProfileType) :
  HeapProfile <= t <= MetricsProfile ->
  t = 0 \/ t = 1 \/ t = 2 \/ t = 3 \/ t = 4 \/ t = 5 \/ t = 6.
Proof. unfold HeapProfile, MetricsProfile. lia. Qed.

(** X7: two supported profile types that share a name, a file name or a tag
    are the same type, so no two profiles of a batch are uploaded under one
    file name; and ["unknown"] (["profile_type:unknown"] for the tag) is the
    result only for values that are none of the seven types. *)
Theorem registry_strings_identify_the_type :
  (forall t1 t2 : ProfileType,
     HeapProfile <= t1 <= MetricsProfile ->
     HeapProfile <= t2 <= MetricsProfile ->
     String t1 = String t2 \/ Filename t1 = Filename t2 \/ Tag t1 = Tag t2 ->
     t1 = t2)
  /\ (forall t : ProfileType,
        String t = "unknown" <-> ~ (HeapProfile <= t <= MetricsProfile))
  /\ (forall t : ProfileType,
        Filename t = "unknown" <-> ~ (HeapProfile <= t <= MetricsProfile))
  /\ (forall t : ProfileType,
        Tag t = "profile_type:unknown"
        <-> ~ (HeapProfile <= t <= MetricsProfile)).
Proof.
  split.
  { intros t1 t2 H1 H2 H.
    apply supported_cases in H1, H2.
    destruct H1 as [->|[->|[->|[->|[->|[->| ->]]]]]];
      destruct H2 as [->|[->|[->|[->|[->|[->| ->]]]]]];
      try reflexivity;
      exfalso; destruct H as [H|[H|H]]; vm_compute in H; discriminate H. }
  assert (Hout : forall t, ~ (HeapProfile <= t <= MetricsProfile) ->
                   String t = "unknown" /\ Filename t = "unknown").
  { intros t Ht. unfold HeapProfile, MetricsProfile in Ht.
    split; unfold String, Filename, HeapProfile, CPUProfile, MutexProfile,
      BlockProfile, GoroutineProfile, GoroutineWaitProfile, MetricsProfile;
      not_a_case t. }
  assert (Hin : forall t, HeapProfile <= t <= MetricsProfile ->
                  String t <> "unknown" /\ Filename t <> "unknown"
                  /\ Tag t <> "profile_type:unknown").
  { intros t Ht. apply supported_cases in Ht.
    destruct Ht as [->|[->|[->|[->|[->|[->| ->]]]]]];
      repeat split; intros H; vm_compute in H; discriminate H. }
  repeat split.
  - intros H Ht. apply (proj1 (Hin t Ht)), H.
  - intros Ht. apply (Hout t Ht).
  - intros H Ht. apply (proj1 (proj2 (Hin t Ht))), H.
  - intros Ht. apply (Hout t Ht).
  - intros H Ht. apply (proj2 (proj2 (Hin t Ht))), H.
  - intros Ht. unfold Tag. rewrite (proj1 (Hout t Ht)). reflexivity.
Qed.

(** * Properties of the router options *)

Import mux.

(** ** The loop of [getHeaderTags] *)

Lemma range_Header_panicked {deps : Deps}
    (order : list (string * list string)) :
  foldl (fun acc kv => acc ≫= fun c => header_body c kv) None order = None.
Proof. induction order as [|kv rest IH]; [reflexivity|exact IH]. Qed.

Lemma range_Header_cons {deps : Deps} (kv : string * list string)
    (rest : list (string * list string)) (cfg : StartSpanConfig) :
  range_Header (kv :: rest) cfg
  = match header_body cfg kv with
    | Some cfg' => range_Header rest cfg'
    | None => None
    end.
Proof.
  unfold range_Header. cbn [foldl mbind option_bind].
  destruct (header_body cfg kv); [reflexivity|apply range_Header_panicked].
Qed.

Lemma range_Header_tags {deps : Deps} (order : list (string * list string)) :
  forall tags : gmap string interface,
    range_Header order {| Tags := Some tags |}
    = Some {| Tags := Some (foldl forward_into tags order) |}.
Proof.
  induction order as [|kv rest IH]; intros tags; [reflexivity|].
  rewrite range_Header_cons. unfold header_body, forward_into, assign_Tags.
  cbn [foldl Tags]. destruct (forwarded kv.1); apply IH.
Qed.

Lemma range_Header_nil_map {deps : Deps}
    (order : list (string * list string)) :
  (Exists (fun kv => forwarded kv.1 = true) order ->
   range_Header order {| Tags := None |} = None)
  /\ (Forall (fun kv => forwarded kv.1 = false) order ->
      range_Header order {| Tags := None |} = Some {| Tags := None |}).
Proof.
  induction order as [|kv rest [IH1 IH2]]; split.
  - intros H. inversion H.
  - reflexivity.
  - intros H. rewrite range_Header_cons. unfold header_body, assign_Tags.
    cbn [Tags]. destruct (forwarded kv.1) eqn:Ekv; [reflexivity|].
    apply IH1. inversion H as [? ? Hkv|? ? Hrest]; subst; [congruence|exact Hrest].
  - intros H. rewrite range_Header_cons. unfold header_body.
    inversion H as [|? ? Hkv Hrest]; subst. rewrite Hkv. apply IH2, Hrest.
Qed.

Lemma headerTag_inj {deps : Deps} (k k' : string) :
  headerTag k = headerTag k' -> k = k'.
Proof. unfold headerTag. apply String.app_inj. Qed.

Lemma forward_into_untouched {deps : Deps}
    (order : list (string * list string)) (key : string) :
  forall tags : gmap string interface,
    (forall kv, kv ∈ order -> forwarded kv.1 = true -> key <> headerTag kv.1) ->
    foldl forward_into tags order !! key = tags !! key.
Proof.
  induction order as [|kv rest IH]; intros tags Hkey; [reflexivity|].
  cbn [foldl]. rewrite IH.
  - unfold forward_into. destruct (forwarded kv.1) eqn:Ekv; [|reflexivity].
    apply lookup_insert_ne. intros Heq.
    apply (Hkey kv (list_elem_of_here _ _) Ekv). symmetry. exact Heq.
  - intros kv' Hin. apply Hkey. apply list_elem_of_further, Hin.
Qed.

Lemma forward_into_set {deps : Deps} (order : list (string * list string))
    (k : string) (v : list string) :
  forall tags : gmap string interface,
    NoDup order.*1 ->
    (k, v) ∈ order ->
    forwarded k = true ->
    foldl forward_into tags order !! headerTag k
    = Some (of_string (String.concat "" v)).
Proof.
  induction order as [|kv rest IH]; intros tags Hnd Hin Hk.
  - inversion Hin.
  - cbn [fmap list_fmap] in Hnd. apply NoDup_cons in Hnd as [Hfresh Hnd].
    cbn [foldl]. apply elem_of_cons in Hin as [<-|Hin].
    + rewrite forward_into_untouched.
      * unfold forward_into. cbn [fst snd]. rewrite Hk.
        apply lookup_insert_eq.
      * intros kv' Hkv' _ Heq. apply headerTag_inj in Heq.
        apply Hfresh. cbn [fst]. rewrite Heq.
        apply list_elem_of_fmap. exists kv'. split; [reflexivity|exact Hkv'].
    + apply IH; assumption.
Qed.

Lemma elem_of_header_order {deps : Deps} (req : Request)
    (order : list (string * list string)) (k : string) (v : list string) :
  order ≡ₚ map_to_list (Header req) ->
  (k, v) ∈ order <-> Header req !! k = Some v.
Proof. intros Hp. rewrite Hp. apply elem_of_map_to_list. Qed.

Lemma NoDup_header_order {deps : Deps} (req : Request)
    (order : list (string * list string)) :
  order ≡ₚ map_to_list (Header req) -> NoDup order.*1.
Proof. intros Hp. rewrite Hp. apply NoDup_fst_map_to_list. Qed.

(** The tags after the loop, whatever order [range] yields the entries in. *)
Lemma forward_into_lookup {deps : Deps} (req : Request)
    (order : list (string * list string)) (tags : gmap string interface)
    (key : string) :
  order ≡ₚ map_to_list (Header req) ->
  (exists k v, Header req !! k = Some v /\ forwarded k = true
               /\ key = headerTag k
               /\ foldl forward_into tags order !! key
                  = Some (of_string (String.concat "" v)))
  \/ ((forall k v, Header req !! k = Some v -> forwarded k = true ->
                   key <> headerTag k)
      /\ foldl forward_into tags order !! key = tags !! key).
Proof.
  intros Hp.
  destruct (decide (Exists (fun kv => forwarded kv.1 = true
                                      /\ key = headerTag kv.1) order))
    as [Hex|Hno].
  - left. apply Exists_exists in Hex as ([k v] & Hin & Hk & ->).
    cbn [fst] in *. exists k, v.
    split; [apply (elem_of_header_order req order), Hin; exact Hp|].
    split; [exact Hk|]. split; [reflexivity|].
    apply forward_into_set;
      [apply (NoDup_header_order req), Hp|exact Hin|exact Hk].
  - right.
    assert (Hkey : forall kv, kv ∈ order -> forwarded kv.1 = true ->
                     key <> headerTag kv.1).
    { intros kv Hin Hk Heq. apply Hno, Exists_exists. exists kv. auto. }
    split; [|apply forward_into_untouched, Hkey].
    intros k v Hkv Hk. apply (Hkey (k, v)); [|exact Hk].
    apply (elem_of_header_order req order); assumption.
Qed.

(** ** The headers [getHeaderTags] forwards *)

(** X8: applied to a configuration whose tag map is not [nil],
    [getHeaderTags] does not panic; afterwards every header of the request
    whose lower-cased name does not start with ["x-datadog-"] is the tag
    ["http.headers."] followed by the name, with the header's values
    concatenated; the tag of a header whose lower-cased name starts with
    ["x-datadog-"], and every tag that is not the tag of a forwarded header,
    are as they were. *)
Theorem getHeaderTags_forwards_all_but_datadog_headers {deps : Deps}
    (req : Request) (tags : gmap string interface) :
  exists tags' : gmap string interface,
    getHeaderTags req {| Tags := Some tags |} = Some {| Tags := Some tags' |}
    /\ (forall (k : string) (v : list string),
          Header req !! k = Some v ->
          forwarded k = true ->
          tags' !! ("http.headers." +:+ k)
          = Some (of_string (String.concat "" v)))
    /\ (forall k : string,
          String.prefix "x-datadog-" (strings_ToLower k) = true ->
          tags' !! ("http.headers." +:+ k) = tags !! ("http.headers." +:+ k))
    /\ (forall key : string,
          (forall (k : string) (v : list string),
             Header req !! k = Some v -> forwarded k = true ->
             key <> "http.headers." +:+ k) ->
          tags' !! key = tags !! key).
Proof.
  exists (foldl forward_into tags (map_to_list (Header req))).
  split; [apply range_Header_tags|].
  assert (Huntouched : forall key : string,
            (forall k v, Header req !! k = Some v -> forwarded k = true ->
                         key <> headerTag k) ->
            foldl forward_into tags (map_to_list (Header req)) !! key
            = tags !! key).
  { intros key Hkey. apply forward_into_untouched.
    intros [k v] Hin Hk. apply (Hkey k v); [|exact Hk].
    apply elem_of_map_to_list, Hin. }
  split; [|split].
  - intros k v Hkv Hk.
    apply (forward_into_set _ k v);
      [apply NoDup_fst_map_to_list|apply elem_of_map_to_list, Hkv|exact Hk].
  - intros k Hk. apply Huntouched. intros k' v' _ Hk' Heq.
    apply headerTag_inj in Heq. subst k'.
    unfold forwarded in Hk'. rewrite Hk in Hk'. discriminate Hk'.
  - exact Huntouched.
Qed.

(** ** The order of [range] does not matter *)

(** X9: whatever order [range req.Header] yields the entries of the header
    in, the loop of [getHeaderTags] ends with the same result: the same
    panic or the same tags. *)
Theorem getHeaderTags_is_independent_of_the_range_order {deps : Deps}
    (req : Request) (cfg : StartSpanConfig)
    (order : list (string * list string)) :
  order ≡ₚ map_to_list (Header req) ->
  range_Header order cfg = getHeaderTags req cfg.
Proof.
  intros Hp. unfold getHeaderTags. destruct cfg as [[tags|]].
  - rewrite !range_Header_tags. do 3 f_equal. apply map_eq. intros key.
    destruct (forward_into_lookup req order tags key Hp)
      as [(k & v & Hkv & Hk & -> & ->)|[Hkey ->]].
    + symmetry. apply forward_into_set;
        [apply NoDup_fst_map_to_list|apply elem_of_map_to_list, Hkv|exact Hk].
    + symmetry. apply forward_into_untouched. intros [k v] Hin Hk.
      apply (Hkey k v); [apply elem_of_map_to_list, Hin|exact Hk].
  - destruct (decide (Exists (fun kv => forwarded kv.1 = true) order))
      as [Hex|Hno].
    + rewrite (proj1 (range_Header_nil_map order) Hex).
      symmetry. apply range_Header_nil_map. rewrite <- Hp. exact Hex.
    + assert (Hall : Forall (fun kv => forwarded kv.1 = false) order).
      { apply Forall_forall. intros kv Hin.
        destruct (forwarded kv.1) eqn:Ekv; [|reflexivity].
        exfalso. apply Hno, Exists_exists. exists kv. auto. }
      rewrite (proj2 (range_Header_nil_map order) Hall).
      symmetry. apply range_Header_nil_map. rewrite <- Hp. exact Hall.
Qed.

(** ** When [getHeaderTags] panics *)

(** X10: [getHeaderTags] panics exactly when the tag map of the
    configuration is [nil] and the request has a header it forwards; with a
    [nil] map and no such header the configuration is returned as it is. *)
Theorem getHeaderTags_panics_iff_nil_map_and_forwarded_header {deps : Deps}
    (req : Request) (cfg : StartSpanConfig) :
  (getHeaderTags req cfg = None
   <-> Tags cfg = None
       /\ exists (k : string) (v : list string),
            Header req !! k = Some v /\ forwarded k = true)
  /\ (Tags cfg = None ->
      (forall (k : string) (v : list string),
         Header req !! k = Some v -> forwarded k = false) ->
      getHeaderTags req cfg = Some cfg).
Proof.
  unfold getHeaderTags. destruct cfg as [[tags|]]; cbn [Tags].
  - rewrite range_Header_tags. split; [split|].
    + discriminate.
    + intros [H _]. discriminate H.
    + discriminate.
  - pose proof (range_Header_nil_map (map_to_list (Header req))) as [H1 H2].
    assert (Hall : (forall k v, Header req !! k = Some v -> forwarded k = false)
                   -> Forall (fun kv => forwarded kv.1 = false)
                        (map_to_list (Header req))).
    { intros H. apply Forall_forall. intros [k v] Hin.
      apply (H k v), elem_of_map_to_list, Hin. }
    split; [split|].
    + intros Hnone. split; [reflexivity|].
      destruct (decide (Exists (fun kv => forwarded kv.1 = true)
                          (map_to_list (Header req)))) as [Hex|Hno].
      * apply Exists_exists in Hex as ([k v] & Hin & Hk).
        exists k, v. split; [apply elem_of_map_to_list, Hin|exact Hk].
      * exfalso. rewrite H2 in Hnone; [discriminate Hnone|].
        apply Forall_forall. intros kv Hin.
        destruct (forwarded kv.1) eqn:Ekv; [|reflexivity].
        exfalso. apply Hno, Exists_exists. exists kv. auto.
    + intros [_ (k & v & Hkv & Hk)]. apply H1, Exists_exists.
      exists (k, v). split; [apply elem_of_map_to_list, Hkv|exact Hk].
    + intros _ H. apply H2, Hall, H.
Qed.

(** X9 on a request with three headers, its entries taken backwards. *)
Lemma getHeaderTags_range_order_witness :
  @range_Header testDeps (reverse (map_to_list testRequest))
    {| Tags := Some ∅ |}
  = @getHeaderTags testDeps testRequest {| Tags := Some ∅ |}.
Proof.
  apply (@getHeaderTags_is_independent_of_the_range_order testDeps testRequest).
  apply reverse_Permutation.
Defined.

Example getHeaderTags_on_testRequest :
  @getHeaderTags testDeps testRequest {| Tags := Some ∅ |}
  = Some {| Tags := Some {[ "http.headers.Accept" := inl "text/html,*/*";
                            "http.headers.Host" := inl "example.org" ]} |}
  /\ @getHeaderTags testDeps testRequest {| Tags := None |} = None
  /\ @getHeaderTags testDeps {[ "x-datadog-origin" := ["rum"] ]}
       {| Tags := None |}
     = Some {| Tags := None |}.
Proof. repeat split; vm_compute; reflexivity. Qed.

(** ** The analytics rate *)

(** X11: the rate stored by [WithAnalyticsRate] and by [WithAnalytics] is
    NaN or lies between 0 and 1: [WithAnalyticsRate] stores a rate between
    0 and 1 as it is, and for every other rate, NaN included, it does what
    [WithAnalytics(false)] does; [WithAnalyticsRate(1.0)] does what
    [WithAnalytics(true)] does.  No other field of the configuration is
    written. *)
Theorem analytics_rate_is_NaN_or_a_probability {deps : Deps}
    (cfg : routerConfig) (rate : float) (on : bool) :
  let valid (a : float) :=
    PrimFloat.is_nan a = true
    \/ (PrimFloat.leb 0%float a = true /\ PrimFloat.leb a 1%float = true) in
  valid (analyticsRate (WithAnalyticsRate rate cfg))
  /\ valid (analyticsRate (WithAnalytics on cfg))
  /\ (PrimFloat.leb 0%float rate = true ->
      PrimFloat.leb rate 1%float = true ->
      WithAnalyticsRate rate cfg = set_analyticsRate rate cfg)
  /\ (PrimFloat.leb 0%float rate && PrimFloat.leb rate 1%float = false ->
      WithAnalyticsRate rate cfg = WithAnalytics false cfg)
  /\ WithAnalyticsRate 1%float cfg = WithAnalytics true cfg
  /\ WithAnalyticsRate nan cfg = WithAnalytics false cfg.
Proof.
  intros valid. unfold valid, WithAnalyticsRate, WithAnalytics, math_NaN.
  split; [|split; [|split; [|split; [|split]]]].
  - destruct (PrimFloat.leb 0%float rate) eqn:E0;
      destruct (PrimFloat.leb rate 1%float) eqn:E1; cbn;
      solve [right; split; assumption | left; reflexivity].
  - destruct on; cbn; [right; split; reflexivity|left; reflexivity].
  - intros -> ->. reflexivity.
  - intros ->. reflexivity.
  - reflexivity.
  - reflexivity.
Qed.

(** X11 at the rates 0.25, 2 and NaN. *)
Lemma analytics_rate_witness :
  analyticsRate (@WithAnalyticsRate testDeps 0.25%float
                   (@defaults testDeps (@WithHeaderTags testDeps
                      (@mk_routerConfig testDeps "" [] [] 0%float
                         (fun _ _ => "") (fun _ => true) false false))))
  = 0.25%float
  /\ @WithAnalyticsRate testDeps 2%float
       (@mk_routerConfig testDeps "" [] [] 0%float
          (fun _ _ => "") (fun _ => true) false false)
     = @WithAnalytics testDeps false
         (@mk_routerConfig testDeps "" [] [] 0%float
            (fun _ _ => "") (fun _ => true) false false).
Proof.
  split.
  - destruct (@analytics_rate_is_NaN_or_a_probability testDeps
                (@defaults testDeps (@WithHeaderTags testDeps
                   (@mk_routerConfig testDeps "" [] [] 0%float
                      (fun _ _ => "") (fun _ => true) false false)))
                0.25%float true) as (_ & _ & H & _).
    rewrite (H eq_refl eq_refl). reflexivity.
  - destruct (@analytics_rate_is_NaN_or_a_probability testDeps
                (@mk_routerConfig testDeps "" [] [] 0%float
                   (fun _ _ => "") (fun _ => true) false false)
                2%float true) as (_ & _ & _ & H & _).
    exact (H eq_refl).
Defined.

(** ** The defaults *)

(** X12: after [defaults] the service name is never empty: it is the
    global service name when there is one and ["mux.router"] otherwise;
    no request is ignored; the span options, the finish options and the two
    flags are kept. *)
Theorem defaults_never_leave_the_service_name_empty {deps : Deps}
    (cfg : routerConfig) :
  serviceName (defaults cfg) <> ""
  /\ (globalconfig_ServiceName <> "" ->
      serviceName (defaults cfg) = globalconfig_ServiceName)
  /\ (globalconfig_ServiceName = "" ->
      serviceName (defaults cfg) = "mux.router")
  /\ (forall req : Request, ignoreRequest (defaults cfg) req = false)
  /\ spanOpts (defaults cfg) = spanOpts cfg
  /\ finishOpts (defaults cfg) = finishOpts cfg
  /\ setRequestData (defaults cfg) = setRequestData cfg
  /\ setQueryParameters (defaults cfg) = setQueryParameters cfg.
Proof.
  unfold defaults. cbn [serviceName ignoreRequest spanOpts finishOpts
                        setRequestData setQueryParameters].
  destruct (String.eqb_spec globalconfig_ServiceName "") as [Heq|Hne].
  - repeat split; try reflexivity; try discriminate.
    intros H. exfalso. apply H, Heq.
  - repeat split; try reflexivity; try assumption.
    intros H. exfalso. apply Hne, H.
Qed.
